(** * createRealFSA.py: the ABIF (.fsa) writer and its signal synthesizer

    A shallow embedding of [backend/scripts/createRealFSA.py]
    ([ABIFWriter.add_tag], [ABIFWriter.create_fsa_file], the check of [main])
    and the properties of the container it writes.

    Conventions of the embedding.
    - A byte is a [Z] in [0, 256); a [bytes] object is a [list Z].
    - Python integers are [Z]; lengths and loop counters are [nat].
    - An int16 array is a [list Z] whose elements went through
      [astype_int16].
    - NumPy's global generator is a cursor (an [N]) into a fixed sequence of
      raw variates ([raw_variate]); every draw advances the cursor.
    - Floating point is not embedded.  The two places where the source
      leaves the integers are kept abstract in [Env]: the normal variate
      (only its integer part is seen, by [astype]) and the Gaussian bump
      [peak * exp(-0.5 * ((x - c) / w) ** 2)] (again only its integer part
      is seen).
    - The file opened with ['wb'] is a byte list with a position; a Python
      exception ([UnicodeEncodeError], [struct.error]) is [None]. *)

From Stdlib Require Import ZArith List String Ascii Bool Lia.
Import ListNotations.
Local Open Scope Z_scope.

(* [length] is the length of a list; the length of a string is [String.length] *)
Import Corelib.Init.Datatypes.
Set Warnings "-abstract-large-number".

Set Implicit Arguments.

(** ** The environment of one run *)

Record datetime := mk_datetime
  { year : Z; month : Z; day : Z; hour : Z; minute : Z; second : Z }.

Record Env := mk_env
  { (* k-th raw variate of the generator: for [np.random.normal] the integer
       part of the float drawn, for [np.random.randint] raw entropy *)
    raw_variate : N -> Z;
    (* integer part of peak * exp(-0.5 * ((x - center) / width) ** 2) *)
    bell : Z -> Z -> Z -> Z -> Z;
    (* datetime.now() *)
    now : datetime;
    (* ndarray.tobytes() uses the byte order of the machine *)
    little_endian : bool }.

(** ** NumPy on integer arrays *)

Module Np.

Definition astype_int16 (v : Z) : Z := (v + 32768) mod 65536 - 32768.

(* np.clip(a, lo, hi) is minimum(hi, maximum(a, lo)) *)
Definition clip (lo hi v : Z) : Z := Z.min hi (Z.max v lo).

Definition arange (a b : Z) : list Z :=
  map (fun k => a + Z.of_nat k) (seq 0 (Z.to_nat (b - a))).

Definition maximum (u v : list Z) : list Z :=
  map (fun p => Z.max (fst p) (snd p)) (combine u v).

(* a[i:j] for 0 <= i, the only case the source reaches *)
Definition get_slice (i j : Z) (a : list Z) : list Z :=
  firstn (Z.to_nat (j - i)) (skipn (Z.to_nat i) a).

(* a[i:j] = v, for 0 <= i <= j <= len(a) and len(v) = j - i *)
Definition set_slice (i j : Z) (a v : list Z) : list Z :=
  firstn (Z.to_nat i) a ++ v ++ skipn (Z.to_nat j) a.

(* the n variates from the cursor g on *)
Fixpoint variates (E : Env) (n : nat) (g : N) : list Z :=
  match n with
  | O => []
  | S k => raw_variate E g :: variates E k (N.succ g)
  end.

(* np.random.normal(loc, scale, n).astype(np.int16): n variates are consumed *)
Definition random_normal_int16 (E : Env) (n : nat) (g : N) : list Z * N :=
  (map astype_int16 (variates E n g), (g + N.of_nat n)%N).

(* np.random.randint(lo, hi): one variate is consumed, the result is in [lo, hi) *)
Definition random_randint (E : Env) (lo hi : Z) (g : N) : Z * N :=
  (lo + raw_variate E g mod (hi - lo), N.succ g).

(* ndarray.tobytes() of an int16 array: two bytes per element *)
Definition int16_bytes (le : bool) (v : Z) : list Z :=
  let u := v mod 65536 in
  if le then [u mod 256; u / 256] else [u / 256; u mod 256].

Definition tobytes (le : bool) (a : list Z) : list Z :=
  flat_map (int16_bytes le) a.

End Np.

(** ** The signal synthesizer (lines 37-66 of the source) *)

Section Synthesizer.

Variable E : Env.

(* the body of [for peak_pos in [1000, ..., 6000]] *)
Definition sample_peak (data_points : nat) (st : list Z * N) (peak_pos : Z)
  : list Z * N :=
  let '(data, g) := st in
  let peak_start := peak_pos - 20 in
  let peak_end := peak_pos + 20 in
  if (0 <=? peak_start) && (peak_end <? Z.of_nat data_points) then
    let x := Np.arange peak_start peak_end in
    let '(r, g) := Np.random_randint E 0 300 g in
    let peak := 200 + r in
    let gaussian := map (bell E peak peak_pos 5) x in
    (Np.set_slice peak_start peak_end data
       (Np.maximum (Np.get_slice peak_start peak_end data)
                   (map Np.astype_int16 gaussian)), g)
  else (data, g).

(* the body of [for pos in ladder_positions] *)
Definition ladder_peak (data_points : nat) (st : list Z * N) (pos : Z)
  : list Z * N :=
  let '(data, g) := st in
  if pos <? Z.of_nat data_points then
    let peak_start := Z.max 0 (pos - 15) in
    let peak_end := Z.min (Z.of_nat data_points) (pos + 15) in
    let x := Np.arange peak_start peak_end in
    let '(r, g) := Np.random_randint E 0 200 g in
    let peak := 300 + r in
    let gaussian := map (bell E peak pos 4) x in
    (Np.set_slice peak_start peak_end data
       (Np.maximum (Np.get_slice peak_start peak_end data)
                   (map Np.astype_int16 gaussian)), g)
  else (data, g).

Definition sample_positions : list Z := [1000; 2000; 3000; 4000; 5000; 6000].

Definition ladder_positions : list Z :=
  [350; 500; 750; 1000; 1390; 1500; 1600; 2000; 2500; 3000; 3400; 3500;
   4000; 4500; 4900; 5000].

(* the body of [for ch in range(channels)], without the append *)
Definition synth_channel (data_points : nat) (ch : nat) (g : N)
  : list Z * N :=
  let '(data, g) := Np.random_normal_int16 E data_points g in
  let data := map (Np.clip 0 32767) data in
  if (ch <? 4)%nat then
    fold_left (sample_peak data_points) sample_positions (data, g)
  else
    fold_left (ladder_peak data_points) ladder_positions (data, g).

(* the loop [for ch in range(channels)]: channel_data and the generator *)
Fixpoint synth_channels (data_points : nat) (chs : list nat) (g : N)
  : list (list Z) * N :=
  match chs with
  | [] => ([], g)
  | ch :: rest =>
      let '(data, g) := synth_channel data_points ch g in
      let '(more, g) := synth_channels data_points rest g in
      (data :: more, g)
  end.

End Synthesizer.

(** ** Python [bytes], [str.encode] and [struct.pack] *)

Definition len {A} (l : list A) : Z := Z.of_nat (length l).

Module Py.

(* a bytes literal b'...' *)
Fixpoint b (s : string) : list Z :=
  match s with
  | EmptyString => []
  | String c rest => Z.of_N (N_of_ascii c) :: b rest
  end.

(* str.encode('ascii'): UnicodeEncodeError on a character above 127 *)
Fixpoint encode_ascii (s : string) : option (list Z) :=
  match s with
  | EmptyString => Some []
  | String c rest =>
      let n := Z.of_N (N_of_ascii c) in
      if n <? 128 then option_map (cons n) (encode_ascii rest) else None
  end.

(* bytes.ljust(n, b'\x00') *)
Definition ljust (n : nat) (s : list Z) : list Z :=
  s ++ repeat 0 (n - length s).

(* big-endian unsigned integer on n bytes *)
Fixpoint be_bytes (n : nat) (v : Z) : list Z :=
  match n with
  | O => []
  | S k => (v / 256 ^ Z.of_nat k) mod 256 :: be_bytes k v
  end.

(* struct.pack of one unsigned field: struct.error outside the range *)
Definition pack_uint (n : nat) (v : Z) : option (list Z) :=
  if (0 <=? v) && (v <? 256 ^ Z.of_nat n) then Some (be_bytes n v) else None.

Definition pack_B := pack_uint 1.
Definition pack_H := pack_uint 2.
Definition pack_I := pack_uint 4.

(* the field 'ns': truncated or NUL-padded to n bytes *)
Definition pack_s (n : nat) (s : list Z) : list Z := firstn n (ljust n s).

(* concatenation of packed fields, failing when one of them fails *)
Fixpoint pack_all (fields : list (option (list Z))) : option (list Z) :=
  match fields with
  | [] => Some []
  | None :: _ => None
  | Some x :: rest => option_map (app x) (pack_all rest)
  end.

End Py.

(** ** The writer object, the open file and the IO monad *)

(* self.data_sections is created empty and never used: it is left out *)
Record ABIFWriter := mk_writer
  { directory : list (list Z); header_size : Z }.

Record File := mk_file { content : list Z; pos : nat }.

Record World := mk_world { rng : N; self : ABIFWriter; fh : File }.

Definition IO (A : Type) : Type := World -> option (A * World).

Definition ret {A} (a : A) : IO A := fun w => Some (a, w).

Definition bind {A B} (m : IO A) (k : A -> IO B) : IO B :=
  fun w => match m w with
           | Some (a, w') => k a w'
           | None => None
           end.

Declare Scope io_scope.
Delimit Scope io_scope with io.
Notation "x <- m ;; k" := (bind m (fun x => k))
  (at level 61, m at next level, right associativity) : io_scope.
Notation "m ;; k" := (bind m (fun _ => k))
  (at level 61, right associativity) : io_scope.
Local Open Scope io_scope.

(* a Python expression that may raise *)
Definition try {A} (o : option A) : IO A :=
  fun w => match o with Some a => Some (a, w) | None => None end.

(* a computation on the generator alone *)
Definition draw {A} (f : N -> A * N) : IO A :=
  fun w => let '(a, g) := f (rng w) in
           Some (a, mk_world g (self w) (fh w)).

(* bytes of a file after a write of bs at position p; a gap is zero-filled *)
Definition write_at (p : nat) (bs c : list Z) : list Z :=
  firstn p c ++ repeat 0 (p - length c) ++ bs ++ skipn (p + length bs) c.

(* open(output_path, 'wb'): the file is created or truncated *)
Definition f_open_wb : IO unit :=
  fun w => Some (tt, mk_world (rng w) (self w) (mk_file [] 0)).

(* open(output_path, 'rb') *)
Definition f_open_rb : IO unit :=
  fun w => Some (tt, mk_world (rng w) (self w) (mk_file (content (fh w)) 0)).

Definition f_seek (off : Z) : IO unit :=
  fun w => Some (tt, mk_world (rng w) (self w)
                       (mk_file (content (fh w)) (Z.to_nat off))).

Definition f_write (bs : list Z) : IO unit :=
  fun w => Some (tt, mk_world (rng w) (self w)
                       (mk_file (write_at (pos (fh w)) bs (content (fh w)))
                                (pos (fh w) + length bs))).

Definition f_read (n : nat) : IO (list Z) :=
  fun w => let r := firstn n (skipn (pos (fh w)) (content (fh w))) in
           Some (r, mk_world (rng w) (self w)
                      (mk_file (content (fh w)) (pos (fh w) + length r))).

Definition get_directory : IO (list (list Z)) :=
  fun w => Some (directory (self w), w).

Definition set_directory (d : list (list Z)) : IO unit :=
  fun w => Some (tt, mk_world (rng w) (mk_writer d (header_size (self w))) (fh w)).

(* a for loop whose body updates the local variable current_offset *)
Fixpoint for_each {A} (l : list A) (body : A -> Z -> IO Z) (current_offset : Z)
  : IO Z :=
  match l with
  | [] => ret current_offset
  | x :: rest => off <- body x current_offset ;; for_each rest body off
  end.

(* a for loop over a list, for its effects *)
Fixpoint for_ {A} (l : list A) (body : A -> IO unit) : IO unit :=
  match l with
  | [] => ret tt
  | x :: rest => body x ;; for_ rest body
  end.

(** ** [ABIFWriter] *)

Definition init : ABIFWriter := mk_writer [] 128.

(* add_tag: struct.pack('>4sIIIII', ...) appended to self.directory;
   data_handle is not used by the source *)
Definition add_tag (name : string)
    (element_type element_size num_elements data_size data_offset : Z)
  : IO unit :=
  name_bytes <- try (Py.encode_ascii name) ;;
  entry <- try (Py.pack_all
                  [ Some (Py.pack_s 4 (Py.ljust 4 (firstn 4 name_bytes)));
                    Py.pack_I element_type;
                    Py.pack_I element_size;
                    Py.pack_I num_elements;
                    Py.pack_I data_size;
                    Py.pack_I data_offset ]) ;;
  d <- get_directory ;;
  set_directory (d ++ [entry]).

Section Encoder.

Variable E : Env.

Definition dyes : list string := ["FAM"; "VIC"; "NED"; "PET"; "LIZ"]%string.

Definition create_fsa_file (sample_name : string) : IO bool :=
  let data_points := 8000%nat in
  let channels := 5%nat in
  channel_data <- draw (synth_channels E data_points (seq 0 channels)) ;;
  f_open_wb ;;
  f_write (repeat 0 128%nat) ;;
  let current_offset := 128 in
  let dir_offset := current_offset in
  f_write (repeat 0 1000%nat) ;;
  let current_offset := current_offset + 1000 in
  set_directory [] ;;
  (* sample name *)
  sample_bytes <- try (Py.encode_ascii sample_name) ;;
  f_seek current_offset ;;
  f_write sample_bytes ;;
  add_tag "SMPL" 19 1 (len sample_bytes) (len sample_bytes) current_offset ;;
  let current_offset := current_offset + len sample_bytes in
  (* machine name *)
  let machine := Py.b "ABI_3130" in
  f_seek current_offset ;;
  f_write machine ;;
  add_tag "MCHN" 19 1 (len machine) (len machine) current_offset ;;
  let current_offset := current_offset + len machine in
  (* model *)
  let model := Py.b "3130" in
  f_seek current_offset ;;
  f_write model ;;
  add_tag "MODL" 19 1 (len model) (len model) current_offset ;;
  let current_offset := current_offset + len model in
  (* run date and time *)
  let now := now E in
  run_date <- try (Py.pack_all [Py.pack_H (year now); Py.pack_B (month now);
                                Py.pack_B (day now)]) ;;
  f_seek current_offset ;;
  f_write run_date ;;
  add_tag "RUND" 2 4 1 4 current_offset ;;
  let current_offset := current_offset + 4 in
  run_time <- try (option_map (fun t => t ++ [0])
                     (Py.pack_all [Py.pack_B (hour now); Py.pack_B (minute now);
                                   Py.pack_B (second now)])) ;;
  f_seek current_offset ;;
  f_write run_time ;;
  add_tag "RUNT" 3 4 1 4 current_offset ;;
  let current_offset := current_offset + 4 in
  (* number of data points *)
  f_seek current_offset ;;
  scan <- try (Py.pack_I (Z.of_nat data_points)) ;;
  f_write scan ;;
  add_tag "SCAN" 4 4 1 4 current_offset ;;
  let current_offset := current_offset + 4 in
  (* lane number *)
  f_seek current_offset ;;
  lane <- try (Py.pack_H 1) ;;
  f_write lane ;;
  add_tag "LANE" 5 2 1 2 current_offset ;;
  let current_offset := current_offset + 2 in
  (* dye names *)
  current_offset <-
    for_each dyes (fun dye current_offset =>
      dye_bytes <- try (Py.encode_ascii dye) ;;
      f_seek current_offset ;;
      f_write dye_bytes ;;
      add_tag "DyeN" 19 1 (len dye_bytes) (len dye_bytes) current_offset ;;
      ret (current_offset + len dye_bytes)) current_offset ;;
  (* channel data *)
  current_offset <-
    for_each (seq 0 channels) (fun ch current_offset =>
      let data := nth ch channel_data [] in
      let data_bytes := Np.tobytes (little_endian E) data in
      f_seek current_offset ;;
      f_write data_bytes ;;
      add_tag "DATA" 4 2 (len data) (len data_bytes) current_offset ;;
      ret (current_offset + len data_bytes)) current_offset ;;
  (* directory *)
  f_seek dir_offset ;;
  d <- get_directory ;;
  for_ d f_write ;;
  (* header *)
  f_seek 0 ;;
  header <- try (Py.pack_all [ Some (Py.pack_s 4 (Py.b "ABIF"));
                               Py.pack_H 257;
                               Py.pack_H dir_offset;
                               Py.pack_I (len d);
                               Py.pack_I 0; Py.pack_I 0; Py.pack_I 0 ]) ;;
  f_write header ;;
  f_write (repeat 0 (Z.to_nat (128 - len header))) ;;
  ret true.

(* the check of main after each file: open(output_path, 'rb'), read(4),
   comparison with b'ABIF'; true stands for the line "Valid ABIF header" *)
Definition verify_header : IO bool :=
  f_open_rb ;;
  header <- f_read 4 ;;
  ret (if list_eq_dec Z.eq_dec header (Py.b "ABIF") then true else false).

Definition samples : list string :=
  ["IDENTIFILER_CHILD_001"; "IDENTIFILER_FATHER_001";
   "IDENTIFILER_MOTHER_001"]%string.

(* main: one writer, the three sample files; the verdicts it prints *)
Fixpoint main_loop (names : list string) : IO (list bool) :=
  match names with
  | [] => ret []
  | sample_name :: rest =>
      create_fsa_file sample_name ;;
      ok <- verify_header ;;
      oks <- main_loop rest ;;
      ret (ok :: oks)
  end.

Definition main : option (list bool * World) :=
  main_loop samples (mk_world 0 init (mk_file [] 0)).

End Encoder.

(** ** A reader of the layout the writer produces

    The source only writes.  To state what a consumer of the file sees, the
    formats of the two [struct.pack] calls are read back: ['>4sHHIIII'] for the
    header and ['>4sIIIII'] for a directory entry. *)

Module Reader.

Record Entry := mk_entry
  { tag_name : list Z;
    element_type : Z;
    element_size : Z;
    num_elements : Z;
    data_size : Z;
    data_offset : Z }.

(* value of a big-endian unsigned field *)
Definition be_value (bs : list Z) : Z :=
  fold_left (fun acc x => acc * 256 + x) bs 0.

(* the bytes [off, off + n) of a file *)
Definition bytes_at (off n : nat) (c : list Z) : list Z :=
  firstn n (skipn off c).

Definition magic (c : list Z) : list Z := bytes_at 0 4 c.
Definition version (c : list Z) : Z := be_value (bytes_at 4 2 c).
Definition dir_offset (c : list Z) : Z := be_value (bytes_at 6 2 c).
Definition num_entries (c : list Z) : Z := be_value (bytes_at 8 4 c).

Definition entry_size : nat := 24.

Definition unpack_entry (e : list Z) : Entry :=
  mk_entry (bytes_at 0 4 e)
           (be_value (bytes_at 4 4 e))
           (be_value (bytes_at 8 4 e))
           (be_value (bytes_at 12 4 e))
           (be_value (bytes_at 16 4 e))
           (be_value (bytes_at 20 4 e)).

(* the directory: num_entries records of 24 bytes from dir_offset on *)
Definition read_directory (c : list Z) : list Entry :=
  map (fun k => unpack_entry
                  (bytes_at (Z.to_nat (dir_offset c) + k * entry_size)
                            entry_size c))
      (seq 0 (Z.to_nat (num_entries c))).

(* the payload an entry points to *)
Definition payload (c : list Z) (e : Entry) : list Z :=
  bytes_at (Z.to_nat (data_offset e)) (Z.to_nat (data_size e)) c.

(* [off, off + size) lies in a file of n bytes *)
Definition in_file (n : Z) (e : Entry) : Prop :=
  0 <= data_offset e /\ 0 <= data_size e /\ data_offset e + data_size e <= n.

(* two byte ranges share no byte *)
Definition disjoint (e1 e2 : Entry) : Prop :=
  data_offset e1 + data_size e1 <= data_offset e2 \/
  data_offset e2 + data_size e2 <= data_offset e1.

End Reader.

(** The header as section 6 of the specification words it: magic, 2-byte
    version, 4-byte directory offset, 4-byte entry count, zero padding. *)
Definition spec_header (version dir_offset count : Z) : list Z :=
  Py.b "ABIF" ++ Py.be_bytes 2 version ++ Py.be_bytes 4 dir_offset
    ++ Py.be_bytes 4 count ++ repeat 0 (128 - 14).

(** The header as the source packs it: the directory offset is an 'H'. *)
Definition code_header (version dir_offset count : Z) : list Z :=
  Py.b "ABIF" ++ Py.be_bytes 2 version ++ Py.be_bytes 2 dir_offset
    ++ Py.be_bytes 4 count ++ repeat 0 (128 - 12).

(** ** A concrete environment, to run the model

    [bell_fixed] evaluates the Gaussian bump with a table of
    [2^40 * exp(-d^2 / (2 w^2))] for the two widths of the source; on the
    heights and windows of the source its value is the integer part of the
    float expression. *)

Definition exp_table_5 : list Z :=
  [1099511627776; 1077739838831; 1014977156642; 918389309781; 798409309760;
   666887512956; 535189765274; 412658917220; 305705244803; 217591920764;
   148802717567; 97770352357; 61720824458; 37435572376; 21815514379;
   12214470866; 6570706660; 3396078506; 1686442676; 804625268; 368845060].

Definition exp_table_4 : list Z :=
  [1099511627776; 1065683211333; 970315605868; 829954919492; 666887512956;
   503393104851; 356959162846; 237786065612; 148802717567; 87476604935;
   48309169407; 25062466927; 12214470866; 5592192259; 2405171920; 971777301].

Definition bell_fixed (peak center width x : Z) : Z :=
  let d := Z.to_nat (Z.abs (x - center)) in
  let table := if width =? 5 then exp_table_5 else exp_table_4 in
  peak * nth d table 0 / 2 ^ 40.

(* a flat baseline of 50 and the lowest height at every peak, for the
   channels 0 to 3 (each consumes 8000 + 6 variates) *)
Definition flat_variates (k : N) : Z :=
  if (k mod 8006 <? 8000)%N then 50 else 0.

Definition some_day : datetime := mk_datetime 2024 6 15 10 30 45.

Definition flat_env : Env := mk_env flat_variates bell_fixed some_day true.

(* the same draws read at another time *)
Definition another_day : datetime := mk_datetime 2025 1 2 3 4 5.

Definition later_env : Env := mk_env flat_variates bell_fixed another_day true.

Definition start : World := mk_world 0 init (mk_file [] 0).

(** ** Vocabulary of the statements *)

(* np.max of a non-empty array *)
Definition amax (a : list Z) : Z :=
  match a with
  | [] => 0
  | x :: rest => fold_left Z.max rest x
  end.

(* the window [P - h, P + h) leaves [0, sample_count) *)
Definition window_outside (P h : Z) (sample_count : nat) : Prop :=
  P - h < 0 \/ Z.of_nat sample_count < P + h.

(* the window [P - h, P + h) lies in [0, sample_count) *)
Definition window_inside (P h : Z) (sample_count : nat) : Prop :=
  0 <= P - h /\ P + h <= Z.of_nat sample_count.

(* res is data raised to f on the indices of [a, b), untouched elsewhere *)
Definition raised_on (a b : Z) (f : Z -> Z) (data res : list Z) : Prop :=
  length res = length data /\
  forall i : nat, (i < length data)%nat ->
    nth i res 0 =
    if (a <=? Z.of_nat i) && (Z.of_nat i <? b)
    then Z.max (nth i data 0) (f (Z.of_nat i))
    else nth i data 0.

(* the bump of a sample channel and of the ladder channel, as stored *)
Definition sample_bump (E : Env) (g : N) (P x : Z) : Z :=
  Np.astype_int16 (bell E (200 + fst (Np.random_randint E 0 300 g)) P 5 x).

Definition ladder_bump (E : Env) (g : N) (P x : Z) : Z :=
  Np.astype_int16 (bell E (300 + fst (Np.random_randint E 0 200 g)) P 4 x).

(* exp(-0.0) is 1.0 and peak * 1.0 is peak: at its centre the bump has the
   height drawn *)
Definition bell_centred (E : Env) : Prop :=
  forall peak center width, bell E peak center width center = peak.

(* what datetime guarantees of its fields *)
Definition datetime_ok (d : datetime) : bool :=
  (1 <=? year d) && (year d <=? 9999) && (1 <=? month d) && (month d <=? 12)
  && (1 <=? day d) && (day d <=? 31) && (0 <=? hour d) && (hour d <=? 23)
  && (0 <=? minute d) && (minute d <=? 59)
  && (0 <=? second d) && (second d <=? 59).

Definition is_ascii (s : string) : bool :=
  match Py.encode_ascii s with Some _ => true | None => false end.

(* inputs on which no call of the source raises: an ASCII identifier whose
   length keeps every offset below 2^32, and a clock reading *)
Definition accepted (E : Env) (sample_name : string) : bool :=
  is_ascii sample_name
  && (Z.of_nat (String.length sample_name) + 65169 <? 2 ^ 32)
  && datetime_ok (now E).

(** ** The layout, tag by tag *)

Record Tag := mk_tag
  { t_name : string; t_type : Z; t_size : Z; t_count : Z; t_payload : list Z }.

Definition entry_of (off : Z) (t : Tag) : Reader.Entry :=
  Reader.mk_entry (Py.pack_s 4 (Py.ljust 4 (firstn 4 (Py.b (t_name t)))))
                  (t_type t) (t_size t) (t_count t) (len (t_payload t)) off.

(* the entries of tags whose payloads are laid end to end from off on *)
Fixpoint place (off : Z) (tags : list Tag) : list Reader.Entry :=
  match tags with
  | [] => []
  | t :: rest => entry_of off t :: place (off + len (t_payload t)) rest
  end.

Definition pack_entry (e : Reader.Entry) : list Z :=
  Reader.tag_name e ++ Py.be_bytes 4 (Reader.element_type e)
    ++ Py.be_bytes 4 (Reader.element_size e)
    ++ Py.be_bytes 4 (Reader.num_elements e)
    ++ Py.be_bytes 4 (Reader.data_size e)
    ++ Py.be_bytes 4 (Reader.data_offset e).

Definition run_date_bytes (d : datetime) : list Z :=
  Py.be_bytes 2 (year d) ++ Py.be_bytes 1 (month d) ++ Py.be_bytes 1 (day d).

Definition run_time_bytes (d : datetime) : list Z :=
  (Py.be_bytes 1 (hour d) ++ Py.be_bytes 1 (minute d)
     ++ Py.be_bytes 1 (second d)) ++ [0].

(* the seventeen tags of a call, in the order of the source *)
Definition emitted (E : Env) (sample_bytes : list Z)
    (channel_data : list (list Z)) : list Tag :=
  [ mk_tag "SMPL" 19 1 (len sample_bytes) sample_bytes;
    mk_tag "MCHN" 19 1 (len (Py.b "ABI_3130")) (Py.b "ABI_3130");
    mk_tag "MODL" 19 1 (len (Py.b "3130")) (Py.b "3130");
    mk_tag "RUND" 2 4 1 (run_date_bytes (now E));
    mk_tag "RUNT" 3 4 1 (run_time_bytes (now E));
    mk_tag "SCAN" 4 4 1 (Py.be_bytes 4 8000);
    mk_tag "LANE" 5 2 1 (Py.be_bytes 2 1) ]
  ++ map (fun dye => mk_tag "DyeN" 19 1 (len (Py.b dye)) (Py.b dye)) dyes
  ++ map (fun data => mk_tag "DATA" 4 2 (len data)
                        (Np.tobytes (little_endian E) data)) channel_data.

Definition payloads (tags : list Tag) : list Z :=
  List.concat (map t_payload tags).

(* the world while the payload heap grows: tags are in the directory and
   in the heap, pending is written and not yet in the directory *)
Definition heap_world (g : N) (hs : Z) (p : nat) (tags : list Tag)
    (pending : list Z) : World :=
  mk_world g
    (mk_writer (map pack_entry (place 1128 tags)) hs)
    (mk_file (repeat 0 128%nat ++ repeat 0 1000%nat
                ++ payloads tags ++ pending) p).

(* the file a call leaves *)
Definition container (tags : list Tag) : list Z :=
  code_header 257 128 17
    ++ (List.concat (map pack_entry (place 1128 tags)) ++ repeat 0 592%nat)
    ++ payloads tags.

(* tags whose payload depends on the identifier, the clock or the draws *)
Definition variable_tag (e : Reader.Entry) : bool :=
  if in_dec (list_eq_dec Z.eq_dec) (Reader.tag_name e)
       [Py.b "SMPL"; Py.b "RUND"; Py.b "RUNT"; Py.b "DATA"]
  then true else false.

(* a trace of n samples, each a non-negative int16 *)
Definition trace_ok (n : nat) (data : list Z) : Prop :=
  length data = n /\ Forall (fun v => 0 <= v <= 32767) data.

(* the height of a peak as the specification words it: the largest sample of
   the window exceeds the mean baseline (50) by the smallest height (200) *)
Definition peak_height_as_specified : Prop :=
  forall (E : Env) (g : N) (ch : nat) (P : Z),
    bell_centred E -> (ch < 4)%nat -> In P sample_positions ->
    window_inside P 20 8000 ->
    50 + 200 <= amax (Np.get_slice (P - 20) (P + 20)
                        (fst (synth_channel E 8000 ch g))).

(* where the heap ends once the payloads of tags are written *)
Definition heap_end (tags : list Tag) : Z := 1128 + len (payloads tags).

(* an entry whose fields fit the format: a 4-byte name, 32-bit fields *)
Definition entry_wf (e : Reader.Entry) : Prop :=
  length (Reader.tag_name e) = 4%nat /\
  0 <= Reader.element_type e < 4294967296 /\
  0 <= Reader.element_size e < 4294967296 /\
  0 <= Reader.num_elements e < 4294967296 /\
  0 <= Reader.data_size e < 4294967296 /\
  0 <= Reader.data_offset e < 4294967296.

Definition no_entry : Reader.Entry := Reader.mk_entry [] 0 0 0 0 0.

(* two tags that give the same directory entry at the same offset *)
Definition same_shape (t u : Tag) : Prop :=
  t_name t = t_name u /\ t_type t = t_type u /\ t_size t = t_size u /\
  t_count t = t_count u /\ len (t_payload t) = len (t_payload u).

(* the channel data and the tags of a call from the world w *)
Definition channels_of (E : Env) (w : World) : list (list Z) :=
  fst (synth_channels E 8000 (seq 0 5) (rng w)).

Definition tags_of (E : Env) (sample_name : string) (w : World) : list Tag :=
  emitted E (Py.b sample_name) (channels_of E w).

(** ** Vocabulary of the further properties *)

(* the trace of a channel before any peak: the clipped normal variates *)
Definition baseline (E : Env) (data_points : nat) (g : N) : list Z :=
  map (Np.clip 0 32767) (fst (Np.random_normal_int16 E data_points g)).

(* the positions and the half width of the windows of a channel *)
Definition positions_of (ch : nat) : list Z :=
  if (ch <? 4)%nat then sample_positions else ladder_positions.

Definition half_width (ch : nat) : Z := if (ch <? 4)%nat then 20 else 15.

(* 0 <= exp(-t) <= 1 for t >= 0: the bump lies between 0 and the height *)
Definition bell_bounded (E : Env) : Prop :=
  forall peak center width x,
    0 <= peak -> 0 <= bell E peak center width x <= peak.

(* a field that struct.pack accepts for the format 'I' *)
Definition fits32 (v : Z) : bool := (0 <=? v) && (v <? 4294967296).

(* the samples of an int16 array, from the bytes of ndarray.tobytes() *)
Fixpoint frombytes (le : bool) (bs : list Z) : list Z :=
  match bs with
  | x :: y :: rest =>
      let u := if le then x + 256 * y else 256 * x + y in
      (if u <? 32768 then u else u - 65536) :: frombytes le rest
  | _ => []
  end.

(* the sum of the sizes that the entries declare *)
Definition total_size (es : list Reader.Entry) : Z :=
  fold_right (fun e acc => Reader.data_size e + acc) 0 es.

(* data is nowhere above the larger of base and 499 *)
Definition capped (base data : list Z) : Prop :=
  forall i : nat, nth i data 0 <= Z.max (nth i base 0) 499.

(** * Properties *)

(** ** Arrays *)

Lemma nth_maximum (u v : list Z) (k : nat) :
  (k < length u)%nat -> (k < length v)%nat ->
  nth k (Np.maximum u v) 0 = Z.max (nth k u 0) (nth k v 0).
Proof.
  revert v k. induction u as [|x u IH]; intros [|y v] k Hu Hv;
    simpl in *; try lia.
  destruct k as [|k]; [reflexivity|]. apply IH; lia.
Qed.

Lemma length_maximum (u v : list Z) :
  length (Np.maximum u v) = Nat.min (length u) (length v).
Proof. unfold Np.maximum. now rewrite length_map, length_combine. Qed.

Lemma length_arange (a b : Z) : length (Np.arange a b) = Z.to_nat (b - a).
Proof. unfold Np.arange. now rewrite length_map, length_seq. Qed.

Lemma nth_map_arange (f : Z -> Z) (a b : Z) (k : nat) :
  (k < Z.to_nat (b - a))%nat ->
  nth k (map f (Np.arange a b)) 0 = f (a + Z.of_nat k).
Proof.
  intros Hk. unfold Np.arange. rewrite map_map.
  rewrite (nth_indep _ 0 (f (a + Z.of_nat 0))) by now rewrite length_map, length_seq.
  rewrite (map_nth (fun k => f (a + Z.of_nat k)) (seq 0 (Z.to_nat (b - a))) 0%nat k).
  now rewrite seq_nth.
Qed.

Lemma length_get_slice (a b : Z) (data : list Z) :
  0 <= a <= b -> b <= len data ->
  length (Np.get_slice a b data) = Z.to_nat (b - a).
Proof.
  unfold Np.get_slice, len. intros. rewrite length_firstn, length_skipn. lia.
Qed.

Lemma nth_get_slice (a b : Z) (data : list Z) (k : nat) :
  (k < Z.to_nat (b - a))%nat ->
  nth k (Np.get_slice a b data) 0 = nth (Z.to_nat a + k) data 0.
Proof.
  intros. unfold Np.get_slice. rewrite nth_firstn.
  destruct (Nat.ltb_spec k (Z.to_nat (b - a))); [|lia].
  now rewrite nth_skipn.
Qed.

(** A slice assignment of the element-wise maximum raises the window and
    leaves the rest. *)
Lemma overlay_raised (a b : Z) (f : Z -> Z) (data : list Z) :
  0 <= a <= b -> b <= len data ->
  raised_on a b f data
    (Np.set_slice a b data
       (Np.maximum (Np.get_slice a b data) (map f (Np.arange a b)))).
Proof.
  intros Hab Hb. unfold len in Hb.
  assert (Hm : length (Np.maximum (Np.get_slice a b data) (map f (Np.arange a b)))
               = Z.to_nat (b - a)).
  { rewrite length_maximum, length_get_slice, length_map, length_arange
      by (unfold len; lia). lia. }
  split.
  - unfold Np.set_slice. rewrite !length_app, Hm, length_firstn, length_skipn. lia.
  - intros i Hi. unfold Np.set_slice.
    destruct (Z.leb_spec a (Z.of_nat i)); simpl.
    + rewrite app_nth2 by (rewrite length_firstn; lia).
      rewrite length_firstn.
      replace (Nat.min (Z.to_nat a) (length data)) with (Z.to_nat a) by lia.
      destruct (Z.ltb_spec (Z.of_nat i) b).
      * rewrite app_nth1 by lia.
        rewrite nth_maximum
          by (rewrite ?length_get_slice, ?length_map, ?length_arange;
              unfold len; lia).
        rewrite nth_get_slice, nth_map_arange by lia.
        replace (Z.to_nat a + (i - Z.to_nat a))%nat with i by lia.
        replace (a + Z.of_nat (i - Z.to_nat a)) with (Z.of_nat i) by lia.
        reflexivity.
      * rewrite app_nth2 by lia. rewrite Hm, nth_skipn. f_equal. lia.
    + rewrite app_nth1 by (rewrite length_firstn; lia).
      rewrite nth_firstn.
      destruct (Nat.ltb_spec i (Z.to_nat a)); [reflexivity | lia].
Qed.

Lemma astype_int16_range (v : Z) : -32768 <= Np.astype_int16 v <= 32767.
Proof.
  unfold Np.astype_int16.
  pose proof (Z.mod_pos_bound (v + 32768) 65536). lia.
Qed.

Lemma astype_int16_id (v : Z) :
  -32768 <= v <= 32767 -> Np.astype_int16 v = v.
Proof.
  intros. unfold Np.astype_int16. rewrite Z.mod_small; lia.
Qed.

Lemma clip_range (v : Z) : 0 <= Np.clip 0 32767 v <= 32767.
Proof. unfold Np.clip. lia. Qed.

Lemma length_variates (E : Env) (n : nat) (g : N) :
  length (Np.variates E n g) = n.
Proof. revert g. induction n; intros; simpl; [reflexivity | now rewrite IHn]. Qed.

(** ** One peak *)


Lemma map_astype_bell (E : Env) (peak c w : Z) (x : list Z) :
  map Np.astype_int16 (map (bell E peak c w) x)
  = map (fun xi => Np.astype_int16 (bell E peak c w xi)) x.
Proof. apply map_map. Qed.

Lemma sample_peak_skipped (E : Env) (n : nat) (data : list Z) (g : N) (P : Z) :
  P - 20 < 0 \/ Z.of_nat n <= P + 20 ->
  sample_peak E n (data, g) P = (data, g).
Proof.
  intros H. unfold sample_peak.
  destruct (Z.leb_spec 0 (P - 20)); destruct (Z.ltb_spec (P + 20) (Z.of_nat n));
    simpl; try reflexivity; lia.
Qed.

Lemma sample_peak_applied (E : Env) (n : nat) (data : list Z) (g : N) (P : Z) :
  length data = n -> 0 <= P - 20 -> P + 20 < Z.of_nat n ->
  snd (sample_peak E n (data, g) P) = N.succ g /\
  raised_on (P - 20) (P + 20) (sample_bump E g P) data
            (fst (sample_peak E n (data, g) P)).
Proof.
  intros Hl H0 H1. unfold sample_peak.
  destruct (Z.leb_spec 0 (P - 20)); [|lia].
  destruct (Z.ltb_spec (P + 20) (Z.of_nat n)); [|lia].
  cbn [andb Np.random_randint fst snd]. split; [reflexivity|].
  rewrite map_astype_bell.
  apply (overlay_raised (fun x => sample_bump E g P x)); unfold len; lia.
Qed.

Lemma ladder_peak_skipped (E : Env) (n : nat) (data : list Z) (g : N) (P : Z) :
  Z.of_nat n <= P ->
  ladder_peak E n (data, g) P = (data, g).
Proof.
  intros H. unfold ladder_peak.
  destruct (Z.ltb_spec P (Z.of_nat n)); [lia | reflexivity].
Qed.

Lemma ladder_peak_applied (E : Env) (n : nat) (data : list Z) (g : N) (P : Z) :
  length data = n -> 0 <= P -> P < Z.of_nat n ->
  snd (ladder_peak E n (data, g) P) = N.succ g /\
  raised_on (Z.max 0 (P - 15)) (Z.min (Z.of_nat n) (P + 15))
            (ladder_bump E g P) data
            (fst (ladder_peak E n (data, g) P)).
Proof.
  intros Hl H0 H1. unfold ladder_peak.
  destruct (Z.ltb_spec P (Z.of_nat n)); [|lia].
  cbn [Np.random_randint fst snd]. split; [reflexivity|].
  rewrite map_astype_bell.
  apply (overlay_raised (fun x => ladder_bump E g P x)); unfold len; lia.
Qed.

(** A raised trace is still a trace: int16 bumps cannot leave [0, 32767]. *)
Lemma raised_trace_ok (a b : Z) (f : Z -> Z) (n : nat) (data res : list Z) :
  (forall x, f x <= 32767) ->
  raised_on a b f data res -> trace_ok n data -> trace_ok n res.
Proof.
  intros Hf [Hlen Hnth] [Hn Hall]. split; [congruence|].
  rewrite Forall_forall in *. intros v Hv.
  destruct (In_nth _ _ 0 Hv) as (i & Hi & <-).
  rewrite Hnth by lia.
  assert (0 <= nth i data 0 <= 32767) by (apply Hall, nth_In; lia).
  specialize (Hf (Z.of_nat i)).
  destruct ((a <=? Z.of_nat i) && (Z.of_nat i <? b)); lia.
Qed.

Lemma raised_ge (a b : Z) (f : Z -> Z) (data res : list Z) (i : nat) :
  raised_on a b f data res -> nth i data 0 <= nth i res 0.
Proof.
  intros [Hlen Hnth]. destruct (Nat.lt_ge_cases i (length data)).
  - rewrite Hnth by assumption.
    destruct ((a <=? Z.of_nat i) && (Z.of_nat i <? b)); lia.
  - rewrite !nth_overflow by lia. lia.
Qed.

Lemma sample_bump_le (E : Env) (g : N) (P x : Z) : sample_bump E g P x <= 32767.
Proof. apply astype_int16_range. Qed.

Lemma ladder_bump_le (E : Env) (g : N) (P x : Z) : ladder_bump E g P x <= 32767.
Proof. apply astype_int16_range. Qed.

Lemma sample_peak_ok (E : Env) (n : nat) (st : list Z * N) (P : Z) :
  trace_ok n (fst st) -> trace_ok n (fst (sample_peak E n st P)).
Proof.
  destruct st as [data g]. intros Hok.
  destruct (Z_lt_ge_dec (P - 20) 0) as [|H0];
    [rewrite sample_peak_skipped by lia; exact Hok|].
  destruct (Z_lt_ge_dec (P + 20) (Z.of_nat n)) as [H1|];
    [|rewrite sample_peak_skipped by lia; exact Hok].
  destruct (@sample_peak_applied E n data g P) as [_ Hr];
    [apply Hok | lia | lia |].
  eapply raised_trace_ok; [apply sample_bump_le | exact Hr | exact Hok].
Qed.

Lemma ladder_peak_ok (E : Env) (n : nat) (st : list Z * N) (P : Z) :
  0 <= P -> trace_ok n (fst st) -> trace_ok n (fst (ladder_peak E n st P)).
Proof.
  destruct st as [data g]. intros HP Hok.
  destruct (Z_lt_ge_dec P (Z.of_nat n)) as [H1|];
    [|rewrite ladder_peak_skipped by lia; exact Hok].
  destruct (@ladder_peak_applied E n data g P) as [_ Hr];
    [apply Hok | lia | lia |].
  eapply raised_trace_ok; [apply ladder_bump_le | exact Hr | exact Hok].
Qed.

Lemma fold_sample_peak_ok (E : Env) (n : nat) (ps : list Z) (st : list Z * N) :
  trace_ok n (fst st) ->
  trace_ok n (fst (fold_left (sample_peak E n) ps st)).
Proof.
  revert st. induction ps as [|P ps IH]; intros st Hok; simpl;
    [exact Hok | apply IH, sample_peak_ok, Hok].
Qed.

Lemma fold_ladder_peak_ok (E : Env) (n : nat) (ps : list Z) (st : list Z * N) :
  Forall (fun P => 0 <= P) ps ->
  trace_ok n (fst st) ->
  trace_ok n (fst (fold_left (ladder_peak E n) ps st)).
Proof.
  revert st. induction ps as [|P ps IH]; intros st Hps Hok; simpl;
    [exact Hok|].
  inversion Hps; subst. apply IH; [assumption | now apply ladder_peak_ok].
Qed.

Lemma ladder_positions_nonneg : Forall (fun P => 0 <= P) ladder_positions.
Proof. unfold ladder_positions. repeat constructor; lia. Qed.

Lemma baseline_ok (E : Env) (n : nat) (g : N) :
  trace_ok n (map (Np.clip 0 32767) (fst (Np.random_normal_int16 E n g))).
Proof.
  split.
  - cbn [Np.random_normal_int16 fst]. now rewrite !length_map, length_variates.
  - rewrite Forall_forall. intros v Hv. apply in_map_iff in Hv.
    destruct Hv as (x & <- & _). apply clip_range.
Qed.

Lemma synth_channel_ok (E : Env) (n ch : nat) (g : N) :
  trace_ok n (fst (synth_channel E n ch g)).
Proof.
  unfold synth_channel. cbn [Np.random_normal_int16].
  destruct (ch <? 4)%nat.
  - apply fold_sample_peak_ok, (baseline_ok E n g).
  - apply fold_ladder_peak_ok;
      [apply ladder_positions_nonneg | apply (baseline_ok E n g)].
Qed.

(** C7.  Every synthesized channel trace has exactly the requested number of
    samples and every sample lies in [0, 32767], whatever the baseline
    variates, the peak heights drawn and the value of the Gaussian bump. *)
Theorem trace_samples_int16_and_length (E : Env) (data_points ch : nat) (g : N) :
  let data := fst (synth_channel E data_points ch g) in
  length data = data_points /\ Forall (fun v => 0 <= v <= 32767) data.
Proof.
  unfold synth_channel. cbn [Np.random_normal_int16].
  pose proof (baseline_ok E data_points g) as Hbase.
  destruct (ch <? 4)%nat.
  - apply fold_sample_peak_ok. exact Hbase.
  - apply fold_ladder_peak_ok; [exact ladder_positions_nonneg | exact Hbase].
Qed.

(** The two loop bodies for any value of data_points.  The sample loop skips
    a peak whose window [P - 20, P + 20) leaves the range and applies one with
    0 <= P - 20 and P + 20 < data_points in full; the ladder loop skips a
    position at or beyond data_points and applies a position below it on the
    window clamped to [max(0, P - 15), min(data_points, P + 15)). *)
Lemma peak_loop_bodies_at_the_edges
    (E : Env) (sample_count : nat) (data : list Z) (g : N) (P : Z) :
  length data = sample_count ->
  (window_outside P 20 sample_count ->
     fst (sample_peak E sample_count (data, g) P) = data) /\
  (0 <= P - 20 /\ P + 20 < Z.of_nat sample_count ->
     raised_on (P - 20) (P + 20) (sample_bump E g P) data
               (fst (sample_peak E sample_count (data, g) P))) /\
  (Z.of_nat sample_count <= P ->
     fst (ladder_peak E sample_count (data, g) P) = data) /\
  (0 <= P < Z.of_nat sample_count ->
     raised_on (Z.max 0 (P - 15)) (Z.min (Z.of_nat sample_count) (P + 15))
               (ladder_bump E g P) data
               (fst (ladder_peak E sample_count (data, g) P))) /\
  (window_inside P 15 sample_count ->
     raised_on (P - 15) (P + 15) (ladder_bump E g P) data
               (fst (ladder_peak E sample_count (data, g) P))).
Proof.
  intros Hlen. repeat split.
  - intros Hout. rewrite sample_peak_skipped; [reflexivity|].
    unfold window_outside in Hout. lia.
  - apply sample_peak_applied; tauto.
  - apply sample_peak_applied; tauto.
  - intros H. now rewrite ladder_peak_skipped.
  - apply ladder_peak_applied; tauto.
  - apply ladder_peak_applied; tauto.
  - destruct H as [H0 H1].
    destruct (@ladder_peak_applied E sample_count data g P) as [_ [Hl _]];
      [assumption | lia | lia | exact Hl].
  - destruct H as [H0 H1].
    destruct (@ladder_peak_applied E sample_count data g P) as [_ [_ Hn]];
      [assumption | lia | lia |].
    replace (Z.max 0 (P - 15)) with (P - 15) in Hn by lia.
    replace (Z.min (Z.of_nat sample_count) (P + 15)) with (P + 15) in Hn by lia.
    exact Hn.
Qed.





(** With the 8000 samples of create_fsa_file every configured window lies in
    the range and passes the guard of its loop: no peak of a file is skipped
    or truncated. *)
Remark configured_windows_fit_8000 :
  Forall (fun P => 0 <= P - 20 /\ P + 20 < Z.of_nat 8000) sample_positions /\
  Forall (fun P => P < Z.of_nat 8000 /\ window_inside P 15 8000)
         ladder_positions.
Proof.
  split; repeat constructor; vm_compute; congruence.
Qed.

(** ** The height of a peak *)

Lemma fold_max_ge (l : list Z) (x : Z) : x <= fold_left Z.max l x.
Proof.
  revert x. induction l as [|y l IH]; intros x; simpl; [lia|].
  specialize (IH (Z.max x y)). lia.
Qed.

Lemma fold_max_ge_nth (l : list Z) (x : Z) (k : nat) :
  (k < length l)%nat -> nth k l 0 <= fold_left Z.max l x.
Proof.
  revert x k. induction l as [|y l IH]; intros x k Hk; simpl in *; [lia|].
  destruct k as [|k].
  - pose proof (fold_max_ge l (Z.max x y)). lia.
  - apply IH. lia.
Qed.

Lemma amax_ge_nth (l : list Z) (k : nat) :
  (k < length l)%nat -> nth k l 0 <= amax l.
Proof.
  destruct l as [|x l]; simpl; [lia|]. intros Hk. destruct k as [|k].
  - apply fold_max_ge.
  - apply fold_max_ge_nth. lia.
Qed.

Lemma sample_peak_ge (E : Env) (n : nat) (st : list Z * N) (Q : Z) (i : nat) :
  trace_ok n (fst st) ->
  nth i (fst st) 0 <= nth i (fst (sample_peak E n st Q)) 0.
Proof.
  destruct st as [data g]. intros Hok.
  destruct (Z_lt_ge_dec (Q - 20) 0) as [|H0];
    [rewrite sample_peak_skipped by lia; simpl; lia|].
  destruct (Z_lt_ge_dec (Q + 20) (Z.of_nat n)) as [H1|];
    [|rewrite sample_peak_skipped by lia; simpl; lia].
  destruct (@sample_peak_applied E n data g Q) as [_ Hr];
    [apply Hok | lia | lia |].
  eapply raised_ge, Hr.
Qed.

Lemma fold_sample_peak_ge (E : Env) (n : nat) (ps : list Z) (st : list Z * N)
    (i : nat) :
  trace_ok n (fst st) ->
  nth i (fst st) 0 <= nth i (fst (fold_left (sample_peak E n) ps st)) 0.
Proof.
  revert st. induction ps as [|Q ps IH]; intros st Hok; simpl; [lia|].
  pose proof (@sample_peak_ge E n st Q i Hok).
  specialize (IH (sample_peak E n st Q) (sample_peak_ok E _ Q Hok)). lia.
Qed.

Lemma sample_bump_centre (E : Env) (g : N) (P : Z) :
  bell_centred E -> 200 <= sample_bump E g P P.
Proof.
  intros Hc. unfold sample_bump. rewrite Hc. cbn [Np.random_randint fst].
  pose proof (Z.mod_pos_bound (raw_variate E g) (300 - 0)).
  rewrite astype_int16_id; lia.
Qed.

Lemma fold_sample_peak_reaches (E : Env) (n : nat) (P : Z) (ps : list Z)
    (st : list Z * N) :
  bell_centred E -> 0 <= P - 20 -> P + 20 < Z.of_nat n ->
  In P ps -> trace_ok n (fst st) ->
  200 <= nth (Z.to_nat P) (fst (fold_left (sample_peak E n) ps st)) 0.
Proof.
  intros Hc H0 H1. revert st.
  induction ps as [|Q ps IH]; intros st Hin Hok; [destruct Hin|].
  simpl. destruct Hin as [->|Hin].
  - pose proof (@fold_sample_peak_ge E n ps (sample_peak E n st P)
                  (Z.to_nat P) (sample_peak_ok E _ P Hok)) as Hge.
    destruct st as [data g].
    destruct (@sample_peak_applied E n data g P) as [_ [_ Hn]];
      [apply Hok | lia | lia |].
    specialize (Hn (Z.to_nat P)). destruct Hok as [Hlen _]. simpl in Hlen.
    rewrite Z2Nat.id in Hn by lia.
    destruct (Z.leb_spec (P - 20) P); [|lia].
    destruct (Z.ltb_spec P (P + 20)); [|lia].
    cbn [andb] in Hn.
    pose proof (sample_bump_centre g P Hc).
    rewrite Hn in Hge by lia. lia.
  - apply IH; [assumption | now apply sample_peak_ok].
Qed.

(** C8, as the code has it.  On a sample channel, for a configured position
    P with 0 <= P - 20 and P + 20 < sample_count, the largest sample of the
    window [P - 20, P + 20) is at least the smallest peak height, 200: it
    exceeds the mean baseline 50 by at least 150, whatever is drawn. *)
Theorem peak_window_reaches_min_height
    (E : Env) (sample_count ch : nat) (g : N) (P : Z) :
  bell_centred E -> (ch < 4)%nat -> In P sample_positions ->
  0 <= P - 20 -> P + 20 < Z.of_nat sample_count ->
  200 <= amax (Np.get_slice (P - 20) (P + 20)
                 (fst (synth_channel E sample_count ch g))).
Proof.
  intros Hc Hch Hin H0 H1.
  pose proof (synth_channel_ok E sample_count ch g) as [Hlen _].
  assert (Hp : 200 <= nth (Z.to_nat P) (fst (synth_channel E sample_count ch g)) 0).
  { unfold synth_channel. cbn [Np.random_normal_int16].
    destruct (Nat.ltb_spec ch 4); [|lia].
    apply fold_sample_peak_reaches; try assumption.
    apply (baseline_ok E sample_count g). }
  pose proof (@amax_ge_nth
                (Np.get_slice (P - 20) (P + 20)
                   (fst (synth_channel E sample_count ch g))) 20) as Hm.
  rewrite length_get_slice in Hm by (unfold len; lia).
  rewrite nth_get_slice in Hm by lia.
  replace (Z.to_nat (P - 20) + 20)%nat with (Z.to_nat P) in Hm by lia.
  specialize (Hm ltac:(lia)). lia.
Qed.

Lemma bell_fixed_centred : bell_centred flat_env.
Proof.
  intros peak c w. cbn [flat_env bell]. unfold bell_fixed.
  rewrite Z.sub_diag. cbn [Z.abs Z.to_nat].
  destruct (w =? 5); cbn [exp_table_5 exp_table_4 nth];
    change 1099511627776 with (2 ^ 40); apply Z.div_mul; discriminate.
Qed.

Lemma peak_window_reaches_min_height_witness :
  (0 < 4)%nat /\ 0 <= 1000 - 20 /\ 1000 + 20 < Z.of_nat 8000 /\
  200 <= amax (Np.get_slice (1000 - 20) (1000 + 20)
                 (fst (synth_channel flat_env 8000 0 0))).
Proof.
  split; [lia | split; [lia | split; [reflexivity|]]].
  apply (@peak_window_reaches_min_height flat_env 8000 0 0%N 1000).
  - exact bell_fixed_centred.
  - lia.
  - simpl; tauto.
  - lia.
  - reflexivity.
Defined.

(** C8, as the specification words it, fails: with a flat baseline of 50 and
    the lowest height drawn, the window of the first peak of channel 0
    culminates at 200, which is 150 above the mean baseline and not 200. *)
Lemma peak_can_stay_below_baseline_plus_min_height :
  ~ peak_height_as_specified.
Proof.
  intros H.
  assert (Hin : In 1000 sample_positions) by (simpl; tauto).
  assert (Hw : window_inside 1000 20 8000) by (split; vm_compute; discriminate).
  specialize (H flat_env 0%N 0%nat 1000 bell_fixed_centred ltac:(lia) Hin Hw).
  vm_compute in H. apply H. reflexivity.
Qed.

(** ** Bytes and [struct] *)

Lemma length_be_bytes (n : nat) (v : Z) : length (Py.be_bytes n v) = n.
Proof. induction n; simpl; congruence. Qed.

Lemma pack_uint_ok (n : nat) (v : Z) :
  0 <= v < 256 ^ Z.of_nat n -> Py.pack_uint n v = Some (Py.be_bytes n v).
Proof.
  intros H. unfold Py.pack_uint.
  destruct (Z.leb_spec 0 v); [|lia].
  destruct (Z.ltb_spec v (256 ^ Z.of_nat n)); [reflexivity | lia].
Qed.

Lemma be_value_acc (n : nat) (v a : Z) :
  0 <= v ->
  fold_left (fun acc x => acc * 256 + x) (Py.be_bytes n v) a
  = a * 256 ^ Z.of_nat n + v mod 256 ^ Z.of_nat n.
Proof.
  intros Hv. revert a. induction n as [|n IH]; intros a.
  - simpl. rewrite Z.mod_1_r. lia.
  - cbn [Py.be_bytes fold_left]. rewrite IH.
    rewrite Nat2Z.inj_succ, Z.pow_succ_r by lia.
    assert (Hp : 0 < 256 ^ Z.of_nat n) by (apply Z.pow_pos_nonneg; lia).
    rewrite (Z.mul_comm 256 (256 ^ Z.of_nat n)).
    rewrite (Z.rem_mul_r v (256 ^ Z.of_nat n) 256) by lia.
    lia.
Qed.

Lemma be_value_be_bytes (n : nat) (v : Z) :
  0 <= v < 256 ^ Z.of_nat n -> Reader.be_value (Py.be_bytes n v) = v.
Proof.
  intros H. unfold Reader.be_value. rewrite be_value_acc by lia.
  rewrite Z.mod_small; lia.
Qed.

Lemma encode_ascii_b (s : string) :
  is_ascii s = true -> Py.encode_ascii s = Some (Py.b s).
Proof.
  unfold is_ascii. induction s as [|c s IH]; simpl; [reflexivity|].
  destruct (Z.of_N (N_of_ascii c) <? 128); [|discriminate].
  destruct (Py.encode_ascii s); simpl; [|discriminate].
  intros _. specialize (IH eq_refl). now inversion IH.
Qed.

Lemma length_b (s : string) : length (Py.b s) = String.length s.
Proof. induction s; simpl; congruence. Qed.

(** ** Writes *)

Lemma write_at_end (p : nat) (bs c : list Z) :
  p = length c -> write_at p bs c = c ++ bs.
Proof.
  intros ->. unfold write_at.
  rewrite firstn_all, Nat.sub_diag, skipn_all2 by lia.
  simpl. now rewrite app_nil_r.
Qed.

Lemma write_at_over (p n : nat) (bs pre post : list Z) :
  p = length pre -> (length bs <= n)%nat ->
  write_at p bs (pre ++ repeat 0 n ++ post)
  = pre ++ bs ++ repeat 0 (n - length bs) ++ post.
Proof.
  intros -> Hn. unfold write_at.
  rewrite firstn_app, firstn_all, Nat.sub_diag, firstn_O, app_nil_r.
  rewrite length_app.
  replace (length pre - (length pre + length (repeat 0%Z n ++ post)))%nat
    with 0%nat by lia.
  rewrite skipn_app, skipn_all2 by lia.
  replace (length pre + length bs - length pre)%nat with (length bs) by lia.
  rewrite skipn_app, repeat_length.
  replace (length bs - n)%nat with 0%nat by lia.
  simpl. do 3 f_equal.
  replace n with (length bs + (n - length bs))%nat at 1 by lia.
  rewrite repeat_app, skipn_app, repeat_length, Nat.sub_diag.
  rewrite skipn_all2 by (rewrite repeat_length; lia). reflexivity.
Qed.

Lemma pack_entry_ok (nm : list Z) (a b c d e : Z) :
  0 <= a < 4294967296 -> 0 <= b < 4294967296 -> 0 <= c < 4294967296 ->
  0 <= d < 4294967296 -> 0 <= e < 4294967296 ->
  Py.pack_all [Some nm; Py.pack_I a; Py.pack_I b; Py.pack_I c;
               Py.pack_I d; Py.pack_I e]
  = Some (pack_entry (Reader.mk_entry nm a b c d e)).
Proof.
  intros. unfold Py.pack_I.
  rewrite !pack_uint_ok by (change (256 ^ Z.of_nat 4) with 4294967296; lia).
  cbn [Py.pack_all option_map]. unfold pack_entry.
  cbn [Reader.tag_name Reader.element_type Reader.element_size
       Reader.num_elements Reader.data_size Reader.data_offset].
  now rewrite app_nil_r.
Qed.

Lemma length_pack_entry (e : Reader.Entry) :
  length (Reader.tag_name e) = 4%nat -> length (pack_entry e) = 24%nat.
Proof.
  intros H. unfold pack_entry. rewrite !length_app, !length_be_bytes, H.
  reflexivity.
Qed.

Lemma length_pack_s (n : nat) (s : list Z) : length (Py.pack_s n s) = n.
Proof.
  unfold Py.pack_s, Py.ljust.
  rewrite length_firstn, length_app, repeat_length. lia.
Qed.

(** ** The layout of the heap *)


Lemma len_app {A} (u v : list A) : len (u ++ v) = len u + len v.
Proof. unfold len. rewrite length_app. lia. Qed.

Lemma payloads_snoc (tags : list Tag) (t : Tag) :
  payloads (tags ++ [t]) = payloads tags ++ t_payload t.
Proof.
  unfold payloads. rewrite map_app, concat_app. simpl. now rewrite app_nil_r.
Qed.

Lemma heap_end_snoc (tags : list Tag) (t : Tag) :
  heap_end (tags ++ [t]) = heap_end tags + len (t_payload t).
Proof. unfold heap_end. rewrite payloads_snoc, len_app. lia. Qed.

Lemma place_snoc (tags : list Tag) (t : Tag) (off : Z) :
  place off (tags ++ [t])
  = place off tags ++ [entry_of (off + len (payloads tags)) t].
Proof.
  revert off. induction tags as [|u tags IH]; intros off; simpl.
  - unfold payloads. simpl. unfold len at 1. simpl. now rewrite Z.add_0_r.
  - rewrite IH. unfold payloads. simpl. fold (payloads tags).
    rewrite len_app. rewrite Z.add_assoc. reflexivity.
Qed.

(** ** Steps of the encoder *)

Lemma run_try {A B} (o : option A) (a : A) (k : A -> IO B) (w : World) :
  o = Some a -> bind (try o) k w = k a w.
Proof. intros ->. reflexivity. Qed.

Lemma run_seek {B} (off : Z) (k : unit -> IO B) g hs p tags pending :
  bind (f_seek off) k (heap_world g hs p tags pending)
  = k tt (heap_world g hs (Z.to_nat off) tags pending).
Proof. reflexivity. Qed.

Lemma run_write {B} (bs : list Z) (k : unit -> IO B) g hs p tags :
  Z.of_nat p = heap_end tags ->
  bind (f_write bs) k (heap_world g hs p tags [])
  = k tt (heap_world g hs (p + length bs) tags bs).
Proof.
  intros Hp. unfold bind, f_write, heap_world. cbn [fh content pos rng self].
  rewrite write_at_end.
  - now rewrite app_nil_r, <- !app_assoc.
  - unfold heap_end, len in Hp.
    rewrite !length_app, !repeat_length. cbn [length]. lia.
Qed.

Lemma run_add_tag {B} (nm : string) (ty es n ds off : Z) (k : unit -> IO B)
    g hs p tags bs :
  is_ascii nm = true ->
  0 <= ty < 4294967296 -> 0 <= es < 4294967296 -> 0 <= n < 4294967296 ->
  ds = len bs -> off = heap_end tags -> ds < 4294967296 ->
  off < 4294967296 ->
  bind (add_tag nm ty es n ds off) k (heap_world g hs p tags bs)
  = k tt (heap_world g hs p (tags ++ [mk_tag nm ty es n bs]) []).
Proof.
  intros Hnm Hty Hes Hn -> -> Hds Hoff. unfold add_tag.
  assert (0 <= len bs) by (unfold len; lia).
  assert (0 <= heap_end tags) by (unfold heap_end, len; lia).
  unfold bind at 1. unfold try at 1. rewrite (encode_ascii_b _ Hnm).
  unfold bind at 1. unfold try at 1. rewrite pack_entry_ok by lia.
  unfold bind, get_directory, set_directory, heap_world.
  cbn [self directory header_size rng fh].
  rewrite place_snoc, map_app, payloads_snoc, app_nil_r. reflexivity.
Qed.

(* the directory written over its placeholder, entry by entry *)
Lemma run_write_directory {B} (d : list (list Z)) (k : unit -> IO B)
    g sf (pre post : list Z) (n p : nat) :
  p = length pre -> (length (List.concat d) <= n)%nat ->
  bind (for_ d f_write) k (mk_world g sf (mk_file (pre ++ repeat 0 n ++ post) p))
  = k tt (mk_world g sf
            (mk_file (pre ++ List.concat d
                        ++ repeat 0 (n - length (List.concat d)) ++ post)
                     (p + length (List.concat d)))).
Proof.
  revert k pre n p. induction d as [|e d IH]; intros k pre n p Hp Hn.
  - cbn. rewrite Nat.sub_0_r, Nat.add_0_r. reflexivity.
  - cbn [for_ List.concat]. cbn [List.concat] in Hn. rewrite length_app in Hn.
    unfold bind at 1. unfold bind at 1. unfold f_write at 1.
    cbn [fh content pos rng self].
    rewrite write_at_over by lia.
    change ((fun _ : unit => for_ d f_write) tt) with (for_ d f_write).
    replace (pre ++ e ++ repeat 0 (n - length e) ++ post)
      with ((pre ++ e) ++ repeat 0 (n - length e) ++ post)
      by now rewrite <- app_assoc.
    specialize (IH k (pre ++ e) (n - length e)%nat (p + length e)%nat).
    unfold bind at 1 in IH. rewrite IH by (rewrite ?length_app; lia).
    rewrite <- !app_assoc, length_app.
    replace (n - (length e + length (List.concat d)))%nat
      with (n - length e - length (List.concat d))%nat by lia.
    now rewrite Nat.add_assoc.
Qed.

Lemma len_tobytes (le : bool) (d : list Z) :
  len (Np.tobytes le d) = 2 * len d.
Proof.
  unfold len, Np.tobytes. induction d as [|x d IH]; [reflexivity|].
  cbn [flat_map]. rewrite length_app. cbn [length].
  replace (length (Np.int16_bytes le x)) with 2%nat
    by (unfold Np.int16_bytes; now destruct le).
  lia.
Qed.

Lemma datetime_ok_fields (d : datetime) :
  datetime_ok d = true ->
  (1 <= year d <= 9999) /\ (1 <= month d <= 12) /\ (1 <= day d <= 31) /\
  (0 <= hour d <= 23) /\ (0 <= minute d <= 59) /\ (0 <= second d <= 59).
Proof.
  unfold datetime_ok. rewrite !andb_true_iff, !Z.leb_le. tauto.
Qed.

Lemma run_date_packed (d : datetime) :
  datetime_ok d = true ->
  Py.pack_all [Py.pack_H (year d); Py.pack_B (month d); Py.pack_B (day d)]
  = Some (run_date_bytes d).
Proof.
  intros H. apply datetime_ok_fields in H.
  unfold Py.pack_H, Py.pack_B.
  rewrite (@pack_uint_ok 2) by (change (256 ^ Z.of_nat 2) with 65536; lia).
  rewrite !(@pack_uint_ok 1) by (change (256 ^ Z.of_nat 1) with 256; lia).
  cbn [Py.pack_all option_map]. unfold run_date_bytes. now rewrite app_nil_r.
Qed.

Lemma run_time_packed (d : datetime) :
  datetime_ok d = true ->
  option_map (fun t => t ++ [0])
    (Py.pack_all [Py.pack_B (hour d); Py.pack_B (minute d); Py.pack_B (second d)])
  = Some (run_time_bytes d).
Proof.
  intros H. apply datetime_ok_fields in H.
  unfold Py.pack_B.
  rewrite !(@pack_uint_ok 1) by (change (256 ^ Z.of_nat 1) with 256; lia).
  cbn [Py.pack_all option_map]. unfold run_time_bytes. now rewrite app_nil_r.
Qed.

Lemma len_run_date (d : datetime) : len (run_date_bytes d) = 4.
Proof. reflexivity. Qed.

Lemma len_run_time (d : datetime) : len (run_time_bytes d) = 4.
Proof. reflexivity. Qed.

Lemma synth_channels_five (E : Env) (n : nat) (g : N) :
  exists d0 d1 d2 d3 d4,
    fst (synth_channels E n (seq 0 5) g) = [d0; d1; d2; d3; d4] /\
    length d0 = n /\ length d1 = n /\ length d2 = n /\ length d3 = n /\
    length d4 = n.
Proof.
  cbn [seq synth_channels].
  pose proof (synth_channel_ok E n 0 g) as [H0 _].
  destruct (synth_channel E n 0 g) as [d0 g0].
  pose proof (synth_channel_ok E n 1 g0) as [H1 _].
  destruct (synth_channel E n 1 g0) as [d1 g1].
  pose proof (synth_channel_ok E n 2 g1) as [H2 _].
  destruct (synth_channel E n 2 g1) as [d2 g2].
  pose proof (synth_channel_ok E n 3 g2) as [H3 _].
  destruct (synth_channel E n 3 g2) as [d3 g3].
  pose proof (synth_channel_ok E n 4 g3) as [H4 _].
  destruct (synth_channel E n 4 g3) as [d4 g4].
  exists d0, d1, d2, d3, d4. simpl in *. tauto.
Qed.

Lemma length_place (off : Z) (tags : list Tag) :
  length (place off tags) = length tags.
Proof. revert off. induction tags; intros; simpl; congruence. Qed.

Lemma length_directory (off : Z) (tags : list Tag) :
  length (List.concat (map pack_entry (place off tags)))
  = (24 * length tags)%nat.
Proof.
  revert off. induction tags as [|t tags IH]; intros off; [reflexivity|].
  cbn [place map List.concat]. rewrite length_app, IH, length_pack_entry.
  - cbn [length]. lia.
  - apply length_pack_s.
Qed.

Lemma accepted_parts (E : Env) (name : string) :
  accepted E name = true ->
  Py.encode_ascii name = Some (Py.b name) /\
  len (Py.b name) + 65169 < 4294967296 /\
  datetime_ok (now E) = true.
Proof.
  unfold accepted. rewrite !andb_true_iff, Z.ltb_lt.
  intros [[Ha Hl] Hd]. split; [now apply encode_ascii_b|]. split; [|exact Hd].
  unfold len. rewrite length_b. exact Hl.
Qed.

Lemma header_packed :
  Py.pack_all [Some (Py.pack_s 4 (Py.b "ABIF")); Py.pack_H 257; Py.pack_H 128;
               Py.pack_I 17; Py.pack_I 0; Py.pack_I 0; Py.pack_I 0]
  = Some (firstn 24 (code_header 257 128 17)).
Proof. reflexivity. Qed.

Lemma header_written (rest : list Z) :
  let h := firstn 24 (code_header 257 128 17) in
  write_at (Z.to_nat 0 + length h) (repeat 0 (Z.to_nat (128 - len h)))
    (write_at (Z.to_nat 0) h (repeat 0 128 ++ rest))
  = code_header 257 128 17 ++ rest.
Proof. reflexivity. Qed.

Lemma scan_packed : Py.pack_I (Z.of_nat 8000) = Some (Py.be_bytes 4 8000).
Proof. reflexivity. Qed.

Lemma lane_packed : Py.pack_H 1 = Some (Py.be_bytes 2 1).
Proof. reflexivity. Qed.


Lemma bind_assoc {A B C} (m : IO A) (f : A -> IO B) (k : B -> IO C) (w : World) :
  bind (bind m f) k w = bind m (fun a => bind (f a) k) w.
Proof. unfold bind. destruct (m w) as [[a w']|]; reflexivity. Qed.

Lemma run_ret {A B} (a : A) (k : A -> IO B) (w : World) :
  bind (ret a) k w = k a w.
Proof. reflexivity. Qed.

Ltac heap_arith :=
  unfold heap_end, payloads; cbn [map List.concat t_payload];
  rewrite ?len_app, ?len_tobytes, ?len_run_date, ?len_run_time;
  change (len (@nil Z)) with 0;
  repeat match goal with
         | |- context [len (Py.b ?s)] =>
             match s with
             | String _ _ => let v := eval vm_compute in (len (Py.b s)) in
                             change (len (Py.b s)) with v
             end
         | |- context [len (Py.be_bytes ?n ?x)] =>
             let v := eval vm_compute in (Z.of_nat n) in
             change (len (Py.be_bytes n x)) with v
         end;
  unfold len in *; lia.

Ltac side :=
  lazymatch goal with
  | |- is_ascii _ = true => reflexivity
  | |- _ => heap_arith
  end.

Ltac step Henc Hnow :=
  cbv beta;
  lazymatch goal with
  | |- exists w', bind ?m _ _ = _ /\ _ =>
      lazymatch m with
      | bind _ _ => rewrite bind_assoc
      | ret _ => rewrite run_ret
      | for_each _ _ _ => cbn [for_each dyes seq nth]
      | f_seek _ => rewrite run_seek
      | f_write _ => rewrite run_write by side
      | add_tag _ _ _ _ _ _ => rewrite run_add_tag by side; cbn [app]
      | try (Py.encode_ascii "FAM") =>
          rewrite (run_try _ _ (encode_ascii_b "FAM" eq_refl))
      | try (Py.encode_ascii "VIC") =>
          rewrite (run_try _ _ (encode_ascii_b "VIC" eq_refl))
      | try (Py.encode_ascii "NED") =>
          rewrite (run_try _ _ (encode_ascii_b "NED" eq_refl))
      | try (Py.encode_ascii "PET") =>
          rewrite (run_try _ _ (encode_ascii_b "PET" eq_refl))
      | try (Py.encode_ascii "LIZ") =>
          rewrite (run_try _ _ (encode_ascii_b "LIZ" eq_refl))
      | try (Py.encode_ascii _) => rewrite (run_try _ _ Henc)
      | try (Py.pack_all [Py.pack_H _; _; _]) =>
          rewrite (run_try _ _ (run_date_packed _ Hnow))
      | try (option_map _ _) => rewrite (run_try _ _ (run_time_packed _ Hnow))
      | try (Py.pack_I _) => rewrite (run_try _ _ scan_packed)
      | try (Py.pack_H _) => rewrite (run_try _ _ lane_packed)
      end
  end.

Lemma create_fsa_file_runs (E : Env) (name : string) (w : World) :
  accepted E name = true ->
  let tags := tags_of E name w in
  exists w',
    create_fsa_file E name w = Some (true, w') /\
    content (fh w') = container tags /\
    directory (self w') = map pack_entry (place 1128 tags).
Proof.
  intros Hacc. destruct (accepted_parts _ _ Hacc) as (Henc & Hlen & Hnow).
  destruct (synth_channels_five E 8000 (rng w))
    as (d0 & d1 & d2 & d3 & d4 & Hch & H0 & H1 & H2 & H3 & H4).
  assert (L0 : len d0 = 8000) by (unfold len; now rewrite H0).
  assert (L1 : len d1 = 8000) by (unfold len; now rewrite H1).
  assert (L2 : len d2 = 8000) by (unfold len; now rewrite H2).
  assert (L3 : len d3 = 8000) by (unfold len; now rewrite H3).
  assert (L4 : len d4 = 8000) by (unfold len; now rewrite H4).
  intros tags. subst tags. unfold tags_of, channels_of.
  rewrite Hch. clear H0 H1 H2 H3 H4.
  unfold create_fsa_file.
  unfold bind at 1. unfold draw at 1.
  destruct (synth_channels E 8000 (seq 0 5) (rng w)) as [chs g'].
  cbn [fst] in Hch. subst chs.
  unfold bind at 1. unfold f_open_wb at 1. cbn [rng self fh].
  unfold bind at 1. unfold f_write at 1. cbn [rng self fh content pos].
  unfold bind at 1. unfold f_write at 1. cbn [rng self fh content pos].
  unfold bind at 1. unfold set_directory at 1. cbn [rng self fh header_size].
  rewrite !write_at_end by reflexivity.
  change (mk_world g' (mk_writer [] (header_size (self w)))
            (mk_file (([] ++ repeat 0 128) ++ repeat 0 1000)
               (0 + length (repeat 0 128) + length (repeat 0 1000))))
    with (heap_world g' (header_size (self w))
            (0 + length (repeat 0 128) + length (repeat 0 1000)) [] []).
  repeat step Henc Hnow.
  unfold heap_world.
  unfold bind at 1. unfold get_directory at 1. cbn [self directory].
  match goal with
  | |- context [place 1128 ?l] => set (tags := l)
  end.
  rewrite run_write_directory;
    [| reflexivity | rewrite length_directory; subst tags; cbn [length]; lia].
  rewrite length_directory.
  unfold bind at 1. unfold f_seek at 1. cbn [rng self fh content pos].
  replace (len (map pack_entry (place 1128 tags))) with 17
    by (unfold len; rewrite length_map, length_place; reflexivity).
  rewrite (run_try _ _ header_packed).
  unfold bind at 1. unfold f_write at 1. cbn [rng self fh content pos].
  unfold bind at 1. unfold f_write at 1. cbn [rng self fh content pos].
  unfold ret.
  eexists. split; [reflexivity|]. cbn [fh content self directory].
  split; [|reflexivity].
  rewrite header_written. unfold container.
  change (emitted E (Py.b name) [d0; d1; d2; d3; d4]) with tags.
  now rewrite app_nil_r, <- app_assoc.
Qed.

(** ** Reading the container back *)

(** X7.  A sample identifier that is not ASCII makes create_fsa_file raise,
    after the placeholders are written. *)
Lemma non_ascii_name_raises (E : Env) (name : string) (w : World) :
  is_ascii name = false -> create_fsa_file E name w = None.
Proof.
  unfold is_ascii. intros H. unfold create_fsa_file.
  unfold bind at 1. unfold draw at 1.
  destruct (synth_channels E 8000 (seq 0 5) (rng w)) as [chs g'].
  unfold bind at 1. unfold f_open_wb at 1.
  unfold bind at 1. unfold f_write at 1.
  unfold bind at 1. unfold f_write at 1.
  unfold bind at 1. unfold set_directory at 1.
  unfold bind at 1. unfold try at 1.
  destruct (Py.encode_ascii name); [discriminate H | reflexivity].
Qed.

Lemma bytes_at_mid (pre x post : list Z) (off n : nat) :
  off = length pre -> n = length x ->
  Reader.bytes_at off n (pre ++ x ++ post) = x.
Proof.
  intros -> ->. unfold Reader.bytes_at.
  rewrite skipn_app, skipn_all, Nat.sub_diag, skipn_O, app_nil_l.
  rewrite firstn_app, firstn_all, Nat.sub_diag, firstn_O. apply app_nil_r.
Qed.

Lemma unpack_pack (e : Reader.Entry) :
  entry_wf e -> Reader.unpack_entry (pack_entry e) = e.
Proof.
  destruct e as [nm a b c d f].
  unfold entry_wf.
  cbn [Reader.tag_name Reader.element_type Reader.element_size
       Reader.num_elements Reader.data_size Reader.data_offset].
  intros (Hn & Ha & Hb & Hc & Hd & Hf).
  assert (H32 : 256 ^ Z.of_nat 4 = 4294967296) by reflexivity.
  unfold Reader.unpack_entry, pack_entry.
  cbn [Reader.tag_name Reader.element_type Reader.element_size
       Reader.num_elements Reader.data_size Reader.data_offset].
  f_equal.
  - now apply (bytes_at_mid []).
  - rewrite bytes_at_mid by (now rewrite ?length_be_bytes).
    apply be_value_be_bytes. lia.
  - rewrite (app_assoc nm), bytes_at_mid
      by (now rewrite ?length_app, ?length_be_bytes, ?Hn).
    apply be_value_be_bytes. lia.
  - rewrite (app_assoc nm), (app_assoc (nm ++ _)), bytes_at_mid
      by (now rewrite ?length_app, ?length_be_bytes, ?Hn).
    apply be_value_be_bytes. lia.
  - rewrite (app_assoc nm), (app_assoc (nm ++ _)), (app_assoc ((nm ++ _) ++ _)),
      bytes_at_mid by (now rewrite ?length_app, ?length_be_bytes, ?Hn).
    apply be_value_be_bytes. lia.
  - rewrite (app_assoc nm), (app_assoc (nm ++ _)), (app_assoc ((nm ++ _) ++ _)),
      (app_assoc (((nm ++ _) ++ _) ++ _)).
    rewrite <- (app_nil_r (Py.be_bytes 4 f)) at 1.
    rewrite bytes_at_mid by (now rewrite ?length_app, ?length_be_bytes, ?Hn).
    apply be_value_be_bytes. lia.
Qed.

(** The records of a directory region are read back one by one. *)
Lemma read_entries (es : list Reader.Entry) (pre post : list Z) :
  Forall entry_wf es ->
  map (fun k => Reader.unpack_entry
                  (Reader.bytes_at (length pre + k * Reader.entry_size)
                     Reader.entry_size
                     (pre ++ List.concat (map pack_entry es) ++ post)))
      (seq 0 (length es))
  = es.
Proof.
  intros Hwf. revert pre. induction Hwf as [|e es He Hes IH]; intros pre;
    [reflexivity|].
  cbn [length seq map List.concat]. f_equal.
  - rewrite <- app_assoc, bytes_at_mid;
      [now apply unpack_pack | simpl; lia |].
    symmetry. apply length_pack_entry, He.
  - rewrite <- seq_shift, map_map. rewrite <- (IH (pre ++ pack_entry e)) at 2.
    apply map_ext. intros k. rewrite <- !app_assoc. do 2 f_equal.
    rewrite length_app, (length_pack_entry _ (proj1 He)).
    unfold Reader.entry_size. lia.
Qed.

Lemma payloads_cons (t : Tag) (tags : list Tag) :
  payloads (t :: tags) = t_payload t ++ payloads tags.
Proof. reflexivity. Qed.

(** Every entry points to the payload written for it. *)
Lemma payloads_read (tags : list Tag) (pre : list Z) :
  map (Reader.payload (pre ++ payloads tags)) (place (len pre) tags)
  = map t_payload tags.
Proof.
  revert pre. induction tags as [|t tags IH]; intros pre; [reflexivity|].
  cbn [place map]. rewrite payloads_cons. f_equal.
  - unfold Reader.payload, entry_of. cbn [Reader.data_offset Reader.data_size].
    apply bytes_at_mid; unfold len; lia.
  - rewrite <- len_app, app_assoc. apply IH.
Qed.

Lemma place_range (tags : list Tag) (off : Z) (e : Reader.Entry) :
  In e (place off tags) ->
  off <= Reader.data_offset e /\ 0 <= Reader.data_size e /\
  Reader.data_offset e + Reader.data_size e <= off + len (payloads tags).
Proof.
  revert off. induction tags as [|t tags IH]; intros off Hin; [destruct Hin|].
  rewrite payloads_cons, len_app.
  assert (0 <= len (t_payload t)) by (unfold len; lia).
  assert (0 <= len (payloads tags)) by (unfold len; lia).
  destruct Hin as [<-|Hin].
  - cbn. lia.
  - apply IH in Hin. lia.
Qed.

Lemma place_ordered (tags : list Tag) (off : Z) (i j : nat) :
  (i < j < length tags)%nat ->
  Reader.data_offset (nth i (place off tags) no_entry)
    + Reader.data_size (nth i (place off tags) no_entry)
  <= Reader.data_offset (nth j (place off tags) no_entry).
Proof.
  revert off i j. induction tags as [|t tags IH]; intros off i j Hij;
    [simpl in Hij; lia|].
  cbn [length] in Hij. destruct j as [|j]; [lia|]. destruct i as [|i].
  - cbn [place nth entry_of Reader.data_offset Reader.data_size].
    assert (Hin : In (nth j (place (off + len (t_payload t)) tags) no_entry)
                     (place (off + len (t_payload t)) tags))
      by (apply nth_In; rewrite length_place; lia).
    apply place_range in Hin. lia.
  - cbn [place nth]. apply IH. lia.
Qed.

Lemma place_same_shape (ts us : list Tag) (off : Z) :
  Forall2 same_shape ts us -> place off ts = place off us.
Proof.
  intros H. revert off. induction H as [|t u ts us (Hn & Ht & Hs & Hc & Hl) _ IH];
    intros off; [reflexivity|].
  cbn [place]. unfold entry_of. rewrite Hn, Ht, Hs, Hc, Hl, IH. reflexivity.
Qed.

Lemma header_read (rest : list Z) :
  let c := code_header 257 128 17 ++ rest in
  firstn 128 c = code_header 257 128 17 /\
  Reader.magic c = Py.b "ABIF" /\ Reader.version c = 257 /\
  Reader.dir_offset c = 128 /\ Reader.num_entries c = 17.
Proof. repeat split. Qed.

(** ** What a call leaves *)

Lemma tags_of_explicit (E : Env) (name : string) (w : World) :
  exists d0 d1 d2 d3 d4,
    tags_of E name w = emitted E (Py.b name) [d0; d1; d2; d3; d4] /\
    len d0 = 8000 /\ len d1 = 8000 /\ len d2 = 8000 /\ len d3 = 8000 /\
    len d4 = 8000.
Proof.
  destruct (synth_channels_five E 8000 (rng w))
    as (d0 & d1 & d2 & d3 & d4 & Hch & H0 & H1 & H2 & H3 & H4).
  exists d0, d1, d2, d3, d4. unfold tags_of, channels_of. rewrite Hch.
  unfold len. rewrite H0, H1, H2, H3, H4. repeat split.
Qed.

Lemma length_tags_of (E : Env) (name : string) (w : World) :
  length (tags_of E name w) = 17%nat.
Proof.
  destruct (tags_of_explicit E name w) as (d0 & d1 & d2 & d3 & d4 & -> & _).
  reflexivity.
Qed.

Lemma entries_wf (E : Env) (name : string) (w : World) :
  accepted E name = true ->
  Forall entry_wf (place 1128 (tags_of E name w)).
Proof.
  intros Hacc. destruct (accepted_parts _ _ Hacc) as (_ & Hlen & _).
  destruct (tags_of_explicit E name w)
    as (d0 & d1 & d2 & d3 & d4 & -> & L0 & L1 & L2 & L3 & L4).
  unfold emitted. cbn [app map dyes place t_payload].
  repeat constructor;
    cbn [entry_of Reader.tag_name Reader.element_type Reader.element_size
         Reader.num_elements Reader.data_size Reader.data_offset
         t_name t_type t_size t_count t_payload];
    try apply length_pack_s; heap_arith.
Qed.

Lemma len_payloads_tags_of (E : Env) (name : string) (w : World) :
  len (payloads (tags_of E name w)) = len (Py.b name) + 80041.
Proof.
  destruct (tags_of_explicit E name w)
    as (d0 & d1 & d2 & d3 & d4 & -> & L0 & L1 & L2 & L3 & L4).
  unfold emitted. cbn [app map dyes]. heap_arith.
Qed.

Lemma len_prefix (tags : list Tag) :
  length tags = 17%nat ->
  len (code_header 257 128 17
         ++ List.concat (map pack_entry (place 1128 tags)) ++ repeat 0 592)
  = 1128.
Proof.
  intros H. unfold len.
  rewrite !length_app, length_directory, H. reflexivity.
Qed.

Lemma container_read (tags : list Tag) :
  length tags = 17%nat -> Forall entry_wf (place 1128 tags) ->
  let c := container tags in
  Reader.read_directory c = place 1128 tags /\
  map (Reader.payload c) (place 1128 tags) = map t_payload tags /\
  len c = 1128 + len (payloads tags) /\
  firstn 1128 c
  = code_header 257 128 17
      ++ List.concat (map pack_entry (place 1128 tags)) ++ repeat 0 592.
Proof.
  intros H17 Hwf c. subst c. unfold container. repeat split.
  - unfold Reader.read_directory.
    destruct (header_read ((List.concat (map pack_entry (place 1128 tags))
                              ++ repeat 0 592) ++ payloads tags))
      as (_ & _ & _ & -> & ->).
    rewrite <- app_assoc.
    etransitivity;
      [|apply (read_entries (code_header 257 128 17)
                 (repeat 0 592 ++ payloads tags) Hwf)].
    rewrite length_place, H17. reflexivity.
  - pose proof (payloads_read tags
                  (code_header 257 128 17
                     ++ List.concat (map pack_entry (place 1128 tags))
                     ++ repeat 0 592)) as Hp.
    rewrite (len_prefix tags H17) in Hp. rewrite <- app_assoc in Hp.
    exact Hp.
  - rewrite app_assoc, len_app, (len_prefix tags H17). reflexivity.
  - rewrite app_assoc.
    pose proof (len_prefix tags H17) as Hl. unfold len in Hl.
    rewrite firstn_app.
    match goal with
    | |- context [firstn ?n (payloads tags)] =>
        replace n with 0%nat by lia
    end.
    rewrite firstn_O, app_nil_r. apply firstn_all2. lia.
Qed.


(** ** The header *)

(** C1, as the code has it.  The file begins with a header of exactly 128
    bytes: the magic "ABIF", the version 0x0101 on 2 bytes, the offset of the
    directory region on 2 bytes (format 'H'), the number of directory entries
    on 4 bytes, all big-endian, and 116 zero bytes; the offset is 128, where
    the entries of self.directory are, and the number is their count. *)
Theorem header_layout_of_the_code (E : Env) (name : string) (w : World) :
  accepted E name = true ->
  exists w',
    create_fsa_file E name w = Some (true, w') /\
    let c := content (fh w') in
    let d := directory (self w') in
    firstn 128 c = code_header 257 128 (len d) /\
    length (code_header 257 128 (len d)) = 128%nat /\
    Reader.bytes_at 128 (length (List.concat d)) c = List.concat d.
Proof.
  intros Hacc.
  destruct (create_fsa_file_runs E name w Hacc) as (w' & Hrun & Hc & Hd).
  exists w'. split; [exact Hrun|]. cbn zeta. rewrite Hc, Hd.
  pose proof (length_tags_of E name w) as H17.
  replace (len (map pack_entry (place 1128 (tags_of E name w)))) with 17
    by (unfold len; now rewrite length_map, length_place, H17).
  unfold container. split; [|split].
  - apply header_read.
  - reflexivity.
  - rewrite <- app_assoc. now apply bytes_at_mid.
Qed.

Lemma header_layout_of_the_code_witness :
  accepted flat_env "SAMPLE001" = true /\
  exists w', create_fsa_file flat_env "SAMPLE001" start = Some (true, w') /\
             firstn 128 (content (fh w'))
             = code_header 257 128 (len (directory (self w'))).
Proof.
  split; [reflexivity|].
  destruct (@header_layout_of_the_code flat_env "SAMPLE001" start eq_refl)
    as (w' & Hrun & Hh & _).
  exists w'. split; [exact Hrun | exact Hh].
Defined.

(** C1, as the specification words it, fails: the directory offset is not a
    4-byte field.  In the file written for "SAMPLE001" the bytes 6 to 9 are
    00 80 00 00 and not 00 00 00 80, whatever the version and the count. *)
Lemma header_directory_offset_is_not_4_bytes :
  exists w',
    create_fsa_file flat_env "SAMPLE001" start = Some (true, w') /\
    forall version count,
      firstn 128 (content (fh w')) <> spec_header version 128 count.
Proof.
  destruct (@create_fsa_file_runs flat_env "SAMPLE001" start eq_refl)
    as (w' & Hrun & Hc & _).
  exists w'. split; [exact Hrun|]. intros v n H. rewrite Hc in H.
  unfold container in H.
  rewrite (proj1 (header_read _)) in H.
  apply (f_equal (fun l => nth 7 l 0)) in H. vm_compute in H. discriminate H.
Qed.

(** C2, as the code has it.  The number of directory entries in the header is
    5 (dye names) + 5 (trace arrays) + 7 (sample name, machine, model, run
    date, run time, scan count, lane), that is 17, and so many entries are in
    self.directory. *)
Theorem header_counts_seventeen_entries (E : Env) (name : string) (w : World) :
  accepted E name = true ->
  exists w',
    create_fsa_file E name w = Some (true, w') /\
    Reader.num_entries (content (fh w')) = 5 + 5 + 7 /\
    len (directory (self w')) = 5 + 5 + 7.
Proof.
  intros Hacc.
  destruct (create_fsa_file_runs E name w Hacc) as (w' & Hrun & Hc & Hd).
  exists w'. split; [exact Hrun|]. rewrite Hc, Hd. split.
  - apply header_read.
  - unfold len. now rewrite length_map, length_place, length_tags_of.
Qed.

Lemma header_counts_seventeen_entries_witness :
  accepted flat_env "SAMPLE001" = true /\
  exists w', create_fsa_file flat_env "SAMPLE001" start = Some (true, w') /\
             Reader.num_entries (content (fh w')) = 17.
Proof.
  split; [reflexivity|].
  destruct (@header_counts_seventeen_entries flat_env "SAMPLE001" start eq_refl)
    as (w' & Hrun & Hn & _).
  exists w'. split; [exact Hrun | exact Hn].
Defined.

(** C2, as the specification words it, fails: for "SAMPLE001" the count in the
    header is not 5 + 5 + 6. *)
Lemma header_count_is_not_sixteen :
  exists w',
    create_fsa_file flat_env "SAMPLE001" start = Some (true, w') /\
    Reader.num_entries (content (fh w')) <> 5 + 5 + 6 /\
    len (directory (self w')) <> 5 + 5 + 6.
Proof.
  destruct (@create_fsa_file_runs flat_env "SAMPLE001" start eq_refl)
    as (w' & Hrun & Hc & Hd).
  exists w'. split; [exact Hrun|]. rewrite Hc, Hd. split.
  - unfold container. rewrite (proj2 (proj2 (proj2 (proj2 (header_read _))))).
    discriminate.
  - unfold len. rewrite length_map, length_place, length_tags_of. discriminate.
Qed.

(** C9.  The first four bytes of every container are the magic "ABIF", the
    check of main reads them and reports the file as valid, and main reports
    its three files as valid. *)
Theorem magic_is_written_and_verified (E : Env) (name : string) (w : World) :
  accepted E name = true ->
  (exists w',
     create_fsa_file E name w = Some (true, w') /\
     firstn 4 (content (fh w')) = Py.b "ABIF" /\
     exists w'', verify_header w' = Some (true, w'')) /\
  (exists wm, main E = Some ([true; true; true], wm)).
Proof.
  intros Hacc.
  assert (Hcall : forall n v, accepted E n = true ->
            exists v' v'', create_fsa_file E n v = Some (true, v') /\
                           firstn 4 (content (fh v')) = Py.b "ABIF" /\
                           verify_header v' = Some (true, v'')).
  { intros n v Hn.
    destruct (create_fsa_file_runs E n v Hn) as (v' & Hrun & Hc & _).
    exists v'. eexists. split; [exact Hrun|].
    unfold verify_header, bind, f_open_rb, f_read, ret.
    cbn [fh content pos rng self]. rewrite Hc. unfold container.
    split; reflexivity. }
  split.
  - destruct (Hcall name w Hacc) as (w' & w'' & H1 & H2 & H3).
    exists w'. repeat split; try assumption. now exists w''.
  - destruct (accepted_parts _ _ Hacc) as (_ & _ & Hnow).
    assert (Hs : forall n, In n samples -> accepted E n = true).
    { intros n Hn. unfold accepted. rewrite Hnow.
      destruct Hn as [<-|[<-|[<-|[]]]]; reflexivity. }
    unfold main. cbn [main_loop samples].
    destruct (Hcall "IDENTIFILER_CHILD_001"%string
                (mk_world 0 init (mk_file [] 0)))
      as (a' & a'' & A1 & _ & A3); [apply Hs; simpl; tauto|].
    destruct (Hcall "IDENTIFILER_FATHER_001"%string a'')
      as (b' & b'' & B1 & _ & B3); [apply Hs; simpl; tauto|].
    destruct (Hcall "IDENTIFILER_MOTHER_001"%string b'')
      as (c' & c'' & C1 & _ & C3); [apply Hs; simpl; tauto|].
    exists c''. unfold bind. rewrite A1, A3, B1, B3, C1, C3. reflexivity.
Qed.

Lemma magic_is_written_and_verified_witness :
  accepted flat_env "SAMPLE001" = true /\
  exists wm, main flat_env = Some ([true; true; true], wm).
Proof.
  split; [reflexivity|].
  exact (proj2 (@magic_is_written_and_verified flat_env "SAMPLE001" start
                  eq_refl)).
Defined.

(** ** The directory and the payloads *)

(** C6.  Read back through the header, the directory of a container has
    seventeen entries; the byte range of each lies in the file, in the heap
    that starts at 1128, and shares no byte with the range of another entry;
    and the bytes it points to are the payload written for its tag. *)
Theorem directory_ranges_and_round_trip (E : Env) (name : string) (w : World) :
  accepted E name = true ->
  exists w',
    create_fsa_file E name w = Some (true, w') /\
    let c := content (fh w') in
    let es := Reader.read_directory c in
    length es = 17%nat /\
    Forall (fun e => Reader.in_file (len c) e /\ 1128 <= Reader.data_offset e)
           es /\
    (forall i j : nat, (i < length es)%nat -> (j < length es)%nat -> i <> j ->
       Reader.disjoint (nth i es no_entry) (nth j es no_entry)) /\
    map (Reader.payload c) es = map t_payload (tags_of E name w).
Proof.
  intros Hacc.
  destruct (create_fsa_file_runs E name w Hacc) as (w' & Hrun & Hc & _).
  exists w'. split; [exact Hrun|]. cbn zeta. rewrite Hc.
  pose proof (length_tags_of E name w) as H17.
  destruct (@container_read (tags_of E name w) H17 (@entries_wf E name w Hacc)) as (Hr & Hp & Hl & _).
  rewrite Hr, Hl. split; [now rewrite length_place|]. split; [|split].
  - rewrite Forall_forall. intros e He. apply place_range in He.
    unfold Reader.in_file. lia.
  - rewrite length_place. intros i j Hi Hj Hij. unfold Reader.disjoint.
    destruct (Nat.lt_ge_cases i j).
    + left. apply place_ordered. lia.
    + right. apply place_ordered. lia.
  - exact Hp.
Qed.

Lemma directory_ranges_and_round_trip_witness :
  accepted flat_env "SAMPLE001" = true /\
  exists w',
    create_fsa_file flat_env "SAMPLE001" start = Some (true, w') /\
    map (Reader.payload (content (fh w')))
        (Reader.read_directory (content (fh w')))
    = map t_payload (tags_of flat_env "SAMPLE001" start).
Proof.
  split; [reflexivity|].
  destruct (@directory_ranges_and_round_trip flat_env "SAMPLE001" start eq_refl)
    as (w' & Hrun & _ & _ & _ & Hp).
  exists w'. split; [exact Hrun | exact Hp].
Defined.

(** C10.  Every directory entry of a container declares a total size equal
    to its element size times its element count. *)
Theorem entry_size_is_width_times_count (E : Env) (name : string) (w : World) :
  accepted E name = true ->
  exists w',
    create_fsa_file E name w = Some (true, w') /\
    let es := Reader.read_directory (content (fh w')) in
    length es = 17%nat /\
    Forall (fun e => Reader.data_size e
                     = Reader.element_size e * Reader.num_elements e) es.
Proof.
  intros Hacc.
  destruct (create_fsa_file_runs E name w Hacc) as (w' & Hrun & Hc & _).
  exists w'. split; [exact Hrun|]. cbn zeta. rewrite Hc.
  pose proof (length_tags_of E name w) as H17.
  destruct (@container_read (tags_of E name w) H17 (@entries_wf E name w Hacc)) as (-> & _).
  split; [now rewrite length_place|].
  destruct (tags_of_explicit E name w)
    as (d0 & d1 & d2 & d3 & d4 & -> & L0 & L1 & L2 & L3 & L4).
  unfold emitted. cbn [app map dyes place t_payload].
  repeat constructor;
    cbn [entry_of Reader.element_size Reader.num_elements Reader.data_size
         t_size t_count t_payload];
    heap_arith.
Qed.

Lemma entry_size_is_width_times_count_witness :
  accepted flat_env "SAMPLE001" = true /\
  exists w',
    create_fsa_file flat_env "SAMPLE001" start = Some (true, w') /\
    Forall (fun e => Reader.data_size e
                     = Reader.element_size e * Reader.num_elements e)
           (Reader.read_directory (content (fh w'))).
Proof.
  split; [reflexivity|].
  destruct (@entry_size_is_width_times_count flat_env "SAMPLE001" start eq_refl)
    as (w' & Hrun & _ & Hf).
  exists w'. split; [exact Hrun | exact Hf].
Defined.

(** C3 fails on the code.  In every container the entry of SCAN declares the
    type code 4 with elements of 4 bytes, and the entries of DATA declare the
    same type code 4 with elements of 2 bytes. *)
Theorem type_code_4_has_two_widths (E : Env) (name : string) (w : World) :
  accepted E name = true ->
  exists w',
    create_fsa_file E name w = Some (true, w') /\
    let es := Reader.read_directory (content (fh w')) in
    let scan := nth 5 es no_entry in
    let data := nth 12 es no_entry in
    Reader.tag_name scan = Py.b "SCAN" /\ Reader.tag_name data = Py.b "DATA" /\
    Reader.element_type scan = 4 /\ Reader.element_type data = 4 /\
    Reader.element_size scan = 4 /\ Reader.element_size data = 2.
Proof.
  intros Hacc.
  destruct (create_fsa_file_runs E name w Hacc) as (w' & Hrun & Hc & _).
  exists w'. split; [exact Hrun|]. cbn zeta. rewrite Hc.
  pose proof (length_tags_of E name w) as H17.
  destruct (@container_read (tags_of E name w) H17 (@entries_wf E name w Hacc)) as (-> & _).
  destruct (tags_of_explicit E name w)
    as (d0 & d1 & d2 & d3 & d4 & -> & _).
  repeat split.
Qed.

Lemma type_code_4_has_two_widths_witness :
  accepted flat_env "SAMPLE001" = true /\
  exists w',
    create_fsa_file flat_env "SAMPLE001" start = Some (true, w') /\
    Reader.element_size (nth 5 (Reader.read_directory (content (fh w'))) no_entry)
    <> Reader.element_size
         (nth 12 (Reader.read_directory (content (fh w'))) no_entry).
Proof.
  split; [reflexivity|].
  destruct (@type_code_4_has_two_widths flat_env "SAMPLE001" start eq_refl)
    as (w' & Hrun & _ & _ & _ & _ & Hs & Hd).
  exists w'. split; [exact Hrun|]. rewrite Hs, Hd. discriminate.
Defined.

(** ** Two containers *)

Lemma payload_nth (c : list Z) (es : list Reader.Entry) (ps : list (list Z))
    (i : nat) :
  map (Reader.payload c) es = ps ->
  Reader.payload c (nth i es no_entry) = nth i ps [].
Proof.
  intros <-. change (@nil Z) with (Reader.payload c no_entry).
  symmetry. apply map_nth.
Qed.

Lemma tags_same_shape (E1 E2 : Env) (n1 n2 : string) (w1 w2 : World) :
  String.length n1 = String.length n2 ->
  Forall2 same_shape (tags_of E1 n1 w1) (tags_of E2 n2 w2).
Proof.
  intros Hn.
  assert (Hb : len (Py.b n1) = len (Py.b n2))
    by (unfold len; now rewrite !length_b, Hn).
  destruct (tags_of_explicit E1 n1 w1)
    as (d0 & d1 & d2 & d3 & d4 & -> & L0 & L1 & L2 & L3 & L4).
  destruct (tags_of_explicit E2 n2 w2)
    as (e0 & e1 & e2 & e3 & e4 & -> & M0 & M1 & M2 & M3 & M4).
  unfold emitted. cbn [app map dyes].
  repeat constructor; cbn [t_name t_type t_size t_count t_payload];
    first [reflexivity | heap_arith].
Qed.

Lemma fixed_payloads_agree (E1 E2 : Env) (n1 n2 : string) (w1 w2 : World)
    (i : nat) (p1 p2 : list Z) :
  (i < 17)%nat ->
  variable_tag (nth i (place 1128 (tags_of E1 n1 w1)) no_entry) = false ->
  nth i (map t_payload (tags_of E1 n1 w1)) p1
  = nth i (map t_payload (tags_of E2 n2 w2)) p2.
Proof.
  intros Hi.
  destruct (tags_of_explicit E1 n1 w1) as (d0 & d1 & d2 & d3 & d4 & -> & _).
  destruct (tags_of_explicit E2 n2 w2) as (e0 & e1 & e2 & e3 & e4 & -> & _).
  do 17 (destruct i as [|i];
         [intros H; first [reflexivity | vm_compute in H; discriminate H]|]).
  lia.
Qed.

(** C5, as the code has it.  Two containers built from two identifiers have
    17 directory entries each, with the same names, type codes and element
    sizes in the same order, and their lengths differ by the difference of the
    lengths of the identifiers.  Entry by entry the payloads are the same
    except those of the sample name, of the run date and time and of the
    traces; the run date and time are the same too when the clock is.  When
    the identifiers have the same length the files have the same length, the
    same header and the same directory, field by field. *)
Theorem structure_depends_on_identifier_length
    (E1 E2 : Env) (n1 n2 : string) (w1 w2 : World) :
  accepted E1 n1 = true -> accepted E2 n2 = true ->
  exists w1' w2',
    create_fsa_file E1 n1 w1 = Some (true, w1') /\
    create_fsa_file E2 n2 w2 = Some (true, w2') /\
    let c1 := content (fh w1') in
    let c2 := content (fh w2') in
    let es1 := Reader.read_directory c1 in
    let es2 := Reader.read_directory c2 in
    length es1 = 17%nat /\ length es2 = 17%nat /\
    map (fun e => (Reader.tag_name e, Reader.element_type e,
                   Reader.element_size e)) es1
    = map (fun e => (Reader.tag_name e, Reader.element_type e,
                     Reader.element_size e)) es2 /\
    len c1 - len c2
    = Z.of_nat (String.length n1) - Z.of_nat (String.length n2) /\
    (forall i : nat, (i < 17)%nat ->
       variable_tag (nth i es1 no_entry) = false ->
       Reader.payload c1 (nth i es1 no_entry)
       = Reader.payload c2 (nth i es2 no_entry)) /\
    (now E1 = now E2 ->
       Reader.payload c1 (nth 3 es1 no_entry)
       = Reader.payload c2 (nth 3 es2 no_entry) /\
       Reader.payload c1 (nth 4 es1 no_entry)
       = Reader.payload c2 (nth 4 es2 no_entry)) /\
    (String.length n1 = String.length n2 ->
       len c1 = len c2 /\
       es1 = es2 /\
       firstn 1128 c1 = firstn 1128 c2).
Proof.
  intros Ha1 Ha2.
  destruct (create_fsa_file_runs E1 n1 w1 Ha1) as (w1' & Hrun1 & Hc1 & _).
  destruct (create_fsa_file_runs E2 n2 w2 Ha2) as (w2' & Hrun2 & Hc2 & _).
  exists w1', w2'. split; [exact Hrun1|]. split; [exact Hrun2|].
  cbn zeta. rewrite Hc1, Hc2.
  pose proof (length_tags_of E1 n1 w1) as H1.
  pose proof (length_tags_of E2 n2 w2) as H2.
  destruct (@container_read (tags_of E1 n1 w1) H1 (@entries_wf E1 n1 w1 Ha1))
    as (Hr1 & Hp1 & Hl1 & Hf1).
  destruct (@container_read (tags_of E2 n2 w2) H2 (@entries_wf E2 n2 w2 Ha2))
    as (Hr2 & Hp2 & Hl2 & Hf2).
  rewrite Hr1, Hr2, Hl1, Hl2, Hf1, Hf2.
  rewrite !len_payloads_tags_of.
  assert (Hb : forall n, len (Py.b n) = Z.of_nat (String.length n))
    by (intros n; unfold len; now rewrite length_b).
  rewrite !Hb.
  pose proof (fun i => @payload_nth _ _ _ i Hp1) as Hn1.
  pose proof (fun i => @payload_nth _ _ _ i Hp2) as Hn2.
  split; [now rewrite length_place|]. split; [now rewrite length_place|].
  split; [|split; [clear; lia|split; [|split]]].
  - destruct (tags_of_explicit E1 n1 w1) as (d0 & d1 & d2 & d3 & d4 & -> & _).
    destruct (tags_of_explicit E2 n2 w2) as (e0 & e1 & e2 & e3 & e4 & -> & _).
    unfold emitted.
    cbn [app map dyes place entry_of t_name t_type t_size Reader.tag_name
         Reader.element_type Reader.element_size].
    reflexivity.
  - intros i Hi Hv. rewrite (Hn1 i), (Hn2 i). now apply fixed_payloads_agree.
  - intros Hnow.
    rewrite (Hn1 3%nat), (Hn1 4%nat), (Hn2 3%nat), (Hn2 4%nat).
    clear Hn1 Hn2 Hp1 Hp2.
    destruct (tags_of_explicit E1 n1 w1) as (d0 & d1 & d2 & d3 & d4 & -> & _).
    destruct (tags_of_explicit E2 n2 w2) as (e0 & e1 & e2 & e3 & e4 & -> & _).
    unfold emitted. cbn [app map dyes nth t_payload]. rewrite Hnow.
    split; reflexivity.
  - intros Hn.
    pose proof (place_same_shape 1128 (tags_same_shape E1 E2 n1 n2 w1 w2 Hn))
      as Hes.
    split; [clear - Hn; lia|]. split; [exact Hes|].
    rewrite Hes. reflexivity.
Qed.

Lemma structure_depends_on_identifier_length_witness :
  accepted flat_env "IDENTIFILER_FATHER_001" = true /\
  accepted flat_env "IDENTIFILER_MOTHER_001" = true /\
  exists w1' w2',
    create_fsa_file flat_env "IDENTIFILER_FATHER_001" start = Some (true, w1') /\
    create_fsa_file flat_env "IDENTIFILER_MOTHER_001" start = Some (true, w2') /\
    Reader.read_directory (content (fh w1'))
    = Reader.read_directory (content (fh w2')).
Proof.
  split; [reflexivity|]. split; [reflexivity|].
  destruct (@structure_depends_on_identifier_length flat_env flat_env
              "IDENTIFILER_FATHER_001" "IDENTIFILER_MOTHER_001" start start
              eq_refl eq_refl)
    as (w1' & w2' & Hr1 & Hr2 & _ & _ & _ & _ & _ & _ & Hsame).
  exists w1', w2'. split; [exact Hr1|]. split; [exact Hr2|].
  exact (proj1 (proj2 (Hsame eq_refl))).
Defined.

(** The files written for "IDENTIFILER_CHILD_001" and
    "IDENTIFILER_FATHER_001", two identifiers of main, have 81190 and 81191
    bytes. *)
Lemma identifiers_of_main_give_different_lengths :
  exists w1' w2',
    create_fsa_file flat_env "IDENTIFILER_CHILD_001" start = Some (true, w1') /\
    create_fsa_file flat_env "IDENTIFILER_FATHER_001" start = Some (true, w2') /\
    len (content (fh w1')) = 81190 /\ len (content (fh w2')) = 81191 /\
    length (content (fh w1')) <> length (content (fh w2')).
Proof.
  destruct (@create_fsa_file_runs flat_env "IDENTIFILER_CHILD_001" start eq_refl)
    as (w1' & Hrun1 & Hc1 & _).
  destruct (@create_fsa_file_runs flat_env "IDENTIFILER_FATHER_001" start eq_refl)
    as (w2' & Hrun2 & Hc2 & _).
  exists w1', w2'. split; [exact Hrun1|]. split; [exact Hrun2|].
  assert (Hlen : forall n, accepted flat_env n = true ->
             len (container (tags_of flat_env n start))
             = len (Py.b n) + 81169).
  { intros n Hn.
    destruct (@container_read (tags_of flat_env n start)
                (length_tags_of flat_env n start)
                (@entries_wf flat_env n start Hn)) as (_ & _ & Hl & _).
    rewrite Hl, len_payloads_tags_of. clear. lia. }
  assert (H1 : len (content (fh w1')) = 81190)
    by (rewrite Hc1, Hlen; reflexivity).
  assert (H2 : len (content (fh w2')) = 81191)
    by (rewrite Hc2, Hlen; reflexivity).
  split; [exact H1|]. split; [exact H2|].
  unfold len in H1, H2. clear - H1 H2. lia.
Qed.

Lemma run_date_payload (E : Env) (name : string) (w w' : World) :
  accepted E name = true ->
  content (fh w') = container (tags_of E name w) ->
  Reader.tag_name (nth 3 (Reader.read_directory (content (fh w'))) no_entry)
  = Py.b "RUND" /\
  Reader.payload (content (fh w'))
    (nth 3 (Reader.read_directory (content (fh w'))) no_entry)
  = run_date_bytes (now E).
Proof.
  intros Hacc ->.
  destruct (@container_read (tags_of E name w) (length_tags_of E name w)
              (@entries_wf E name w Hacc)) as (Hr & Hp & _).
  rewrite Hr, (@payload_nth _ _ _ 3%nat Hp). clear Hr Hp.
  destruct (tags_of_explicit E name w) as (d0 & d1 & d2 & d3 & d4 & -> & _).
  split; reflexivity.
Qed.

(** The files written for "IDENTIFILER_FATHER_001" and
    "IDENTIFILER_MOTHER_001" at two readings of the clock differ in the
    payload of RUND, which is neither the sample name nor a trace. *)
Lemma run_date_follows_the_clock :
  exists w1' w2',
    create_fsa_file flat_env "IDENTIFILER_FATHER_001" start = Some (true, w1') /\
    create_fsa_file later_env "IDENTIFILER_MOTHER_001" start = Some (true, w2') /\
    let c1 := content (fh w1') in
    let c2 := content (fh w2') in
    Reader.tag_name (nth 3 (Reader.read_directory c1) no_entry) = Py.b "RUND" /\
    Reader.tag_name (nth 3 (Reader.read_directory c2) no_entry) = Py.b "RUND" /\
    Reader.payload c1 (nth 3 (Reader.read_directory c1) no_entry)
    <> Reader.payload c2 (nth 3 (Reader.read_directory c2) no_entry).
Proof.
  destruct (@create_fsa_file_runs flat_env "IDENTIFILER_FATHER_001" start
              eq_refl) as (w1' & Hrun1 & Hc1 & _).
  destruct (@create_fsa_file_runs later_env "IDENTIFILER_MOTHER_001" start
              eq_refl) as (w2' & Hrun2 & Hc2 & _).
  exists w1', w2'. split; [exact Hrun1|]. split; [exact Hrun2|]. cbn zeta.
  destruct (@run_date_payload flat_env "IDENTIFILER_FATHER_001" start w1'
              eq_refl Hc1) as [Hn1 Hd1].
  destruct (@run_date_payload later_env "IDENTIFILER_MOTHER_001" start w2'
              eq_refl Hc2) as [Hn2 Hd2].
  split; [exact Hn1|]. split; [exact Hn2|].
  rewrite Hd1, Hd2. vm_compute. discriminate.
Qed.

(** C5, as the specification words it, fails twice: two identifiers of main
    give files of different lengths, and two files differ in the run date,
    which is neither the sample identifier nor a trace. *)
Lemma length_and_run_date_differ_between_files :
  (exists w1' w2',
     create_fsa_file flat_env "IDENTIFILER_CHILD_001" start = Some (true, w1') /\
     create_fsa_file flat_env "IDENTIFILER_FATHER_001" start = Some (true, w2') /\
     length (content (fh w1')) <> length (content (fh w2'))) /\
  (exists w1' w2',
     create_fsa_file flat_env "IDENTIFILER_FATHER_001" start = Some (true, w1') /\
     create_fsa_file later_env "IDENTIFILER_MOTHER_001" start = Some (true, w2') /\
     Reader.tag_name
       (nth 3 (Reader.read_directory (content (fh w1'))) no_entry)
     = Py.b "RUND" /\
     Reader.payload (content (fh w1'))
       (nth 3 (Reader.read_directory (content (fh w1'))) no_entry)
     <> Reader.payload (content (fh w2'))
          (nth 3 (Reader.read_directory (content (fh w2'))) no_entry)).
Proof.
  split.
  - destruct identifiers_of_main_give_different_lengths
      as (w1' & w2' & H1 & H2 & _ & _ & Hne).
    exists w1', w2'. split; [exact H1|]. split; [exact H2 | exact Hne].
  - destruct run_date_follows_the_clock
      as (w1' & w2' & H1 & H2 & Hn & _ & Hne).
    exists w1', w2'. split; [exact H1|]. split; [exact H2|].
    split; [exact Hn | exact Hne].
Qed.

(** * Further properties of the synthesizer *)

Lemma ladder_peak_ge (E : Env) (n : nat) (st : list Z * N) (Q : Z) (i : nat) :
  0 <= Q -> trace_ok n (fst st) ->
  nth i (fst st) 0 <= nth i (fst (ladder_peak E n st Q)) 0.
Proof.
  destruct st as [data g]. intros HQ Hok.
  destruct (Z_lt_ge_dec Q (Z.of_nat n)) as [H1|];
    [|rewrite ladder_peak_skipped by lia; simpl; lia].
  destruct (@ladder_peak_applied E n data g Q) as [_ Hr];
    [apply Hok | lia | lia |].
  eapply raised_ge, Hr.
Qed.

Lemma fold_ladder_peak_ge (E : Env) (n : nat) (ps : list Z) (st : list Z * N)
    (i : nat) :
  Forall (fun P => 0 <= P) ps -> trace_ok n (fst st) ->
  nth i (fst st) 0 <= nth i (fst (fold_left (ladder_peak E n) ps st)) 0.
Proof.
  revert st. induction ps as [|Q ps IH]; intros st Hps Hok; simpl; [lia|].
  inversion Hps as [|? ? HQ Hrest]; subst.
  pose proof (@ladder_peak_ge E n st Q i HQ Hok).
  specialize (IH (ladder_peak E n st Q) Hrest (ladder_peak_ok E _ HQ Hok)).
  lia.
Qed.

(** X1.  Peaks only raise the signal: on every channel each sample of the
    synthesized trace is at least the sample of the clipped baseline. *)
Theorem peaks_only_raise (E : Env) (data_points ch : nat) (g : N) (i : nat) :
  nth i (baseline E data_points g) 0
  <= nth i (fst (synth_channel E data_points ch g)) 0.
Proof.
  unfold synth_channel, baseline. cbn [Np.random_normal_int16 fst].
  pose proof (baseline_ok E data_points g) as Hbase.
  cbn [Np.random_normal_int16 fst] in Hbase.
  destruct (ch <? 4)%nat.
  - exact (@fold_sample_peak_ge E data_points sample_positions (_, _) i Hbase).
  - exact (@fold_ladder_peak_ge E data_points ladder_positions (_, _) i
             ladder_positions_nonneg Hbase).
Qed.

Lemma raised_outside (a b : Z) (f : Z -> Z) (data res : list Z) (i : nat) :
  raised_on a b f data res -> ~ (a <= Z.of_nat i < b) ->
  nth i res 0 = nth i data 0.
Proof.
  intros [Hlen Hnth] Hout. destruct (Nat.lt_ge_cases i (length data)).
  - rewrite Hnth by assumption.
    destruct (Z.leb_spec a (Z.of_nat i)); destruct (Z.ltb_spec (Z.of_nat i) b);
      simpl; try reflexivity; lia.
  - now rewrite !nth_overflow by lia.
Qed.

Lemma sample_peak_outside (E : Env) (n : nat) (st : list Z * N) (Q : Z)
    (i : nat) :
  trace_ok n (fst st) -> ~ (Q - 20 <= Z.of_nat i < Q + 20) ->
  nth i (fst (sample_peak E n st Q)) 0 = nth i (fst st) 0.
Proof.
  destruct st as [data g]. intros Hok Hout.
  destruct (Z_lt_ge_dec (Q - 20) 0) as [|H0];
    [now rewrite sample_peak_skipped by lia|].
  destruct (Z_lt_ge_dec (Q + 20) (Z.of_nat n)) as [H1|];
    [|now rewrite sample_peak_skipped by lia].
  destruct (@sample_peak_applied E n data g Q) as [_ Hr];
    [apply Hok | lia | lia |].
  eapply raised_outside; eassumption.
Qed.

Lemma ladder_peak_outside (E : Env) (n : nat) (st : list Z * N) (Q : Z)
    (i : nat) :
  0 <= Q -> trace_ok n (fst st) -> ~ (Q - 15 <= Z.of_nat i < Q + 15) ->
  nth i (fst (ladder_peak E n st Q)) 0 = nth i (fst st) 0.
Proof.
  destruct st as [data g]. intros HQ Hok Hout.
  destruct (Z_lt_ge_dec Q (Z.of_nat n)) as [H1|];
    [|now rewrite ladder_peak_skipped by lia].
  destruct (@ladder_peak_applied E n data g Q) as [_ Hr];
    [apply Hok | lia | lia |].
  eapply raised_outside; [eassumption | lia].
Qed.

Lemma fold_sample_peak_outside (E : Env) (n : nat) (ps : list Z)
    (st : list Z * N) (i : nat) :
  trace_ok n (fst st) ->
  Forall (fun Q => ~ (Q - 20 <= Z.of_nat i < Q + 20)) ps ->
  nth i (fst (fold_left (sample_peak E n) ps st)) 0 = nth i (fst st) 0.
Proof.
  revert st. induction ps as [|Q ps IH]; intros st Hok Hps; [reflexivity|].
  inversion Hps; subst. simpl.
  rewrite IH by (try apply sample_peak_ok; assumption).
  now apply sample_peak_outside.
Qed.

Lemma fold_ladder_peak_outside (E : Env) (n : nat) (ps : list Z)
    (st : list Z * N) (i : nat) :
  Forall (fun Q => 0 <= Q) ps -> trace_ok n (fst st) ->
  Forall (fun Q => ~ (Q - 15 <= Z.of_nat i < Q + 15)) ps ->
  nth i (fst (fold_left (ladder_peak E n) ps st)) 0 = nth i (fst st) 0.
Proof.
  revert st. induction ps as [|Q ps IH]; intros st Hpos Hok Hps; [reflexivity|].
  inversion Hps; subst. inversion Hpos; subst. simpl.
  rewrite IH by (try apply ladder_peak_ok; assumption).
  now apply ladder_peak_outside.
Qed.

(** X2.  Away from the peaks the trace is the baseline: a sample whose index
    lies in no window [P - h, P + h) of the channel (h = 20 on a sample
    channel, 15 on the ladder channel) keeps its clipped baseline value. *)
Theorem baseline_kept_outside_windows
    (E : Env) (data_points ch : nat) (g : N) (i : nat) :
  Forall (fun P => ~ (P - half_width ch <= Z.of_nat i < P + half_width ch))
         (positions_of ch) ->
  nth i (fst (synth_channel E data_points ch g)) 0
  = nth i (baseline E data_points g) 0.
Proof.
  unfold synth_channel, baseline, positions_of, half_width.
  cbn [Np.random_normal_int16 fst].
  pose proof (baseline_ok E data_points g) as Hbase.
  cbn [Np.random_normal_int16 fst] in Hbase.
  destruct (ch <? 4)%nat; intros Hout.
  - exact (@fold_sample_peak_outside E data_points sample_positions (_, _) i
             Hbase Hout).
  - exact (@fold_ladder_peak_outside E data_points ladder_positions (_, _) i
             ladder_positions_nonneg Hbase Hout).
Qed.

Lemma baseline_kept_outside_windows_witness :
  nth 100 (fst (synth_channel flat_env 8000 0 0)) 0
  = nth 100 (baseline flat_env 8000 0) 0.
Proof.
  apply (@baseline_kept_outside_windows flat_env 8000 0 0%N 100).
  repeat constructor; vm_compute; intros [H1 H2]; congruence.
Defined.

Lemma ladder_bump_centre (E : Env) (g : N) (P : Z) :
  bell_centred E -> 300 <= ladder_bump E g P P.
Proof.
  intros Hc. unfold ladder_bump. rewrite Hc. cbn [Np.random_randint fst].
  pose proof (Z.mod_pos_bound (raw_variate E g) (200 - 0)).
  rewrite astype_int16_id; lia.
Qed.

Lemma fold_ladder_peak_reaches (E : Env) (n : nat) (P : Z) (ps : list Z)
    (st : list Z * N) :
  bell_centred E -> 0 <= P < Z.of_nat n ->
  Forall (fun Q => 0 <= Q) ps -> In P ps -> trace_ok n (fst st) ->
  300 <= nth (Z.to_nat P) (fst (fold_left (ladder_peak E n) ps st)) 0.
Proof.
  intros Hc HP. revert st.
  induction ps as [|Q ps IH]; intros st Hps Hin Hok; [destruct Hin|].
  inversion Hps as [|? ? HQ Hrest]; subst.
  simpl. destruct Hin as [->|Hin].
  - pose proof (@fold_ladder_peak_ge E n ps (ladder_peak E n st P)
                  (Z.to_nat P) Hrest (ladder_peak_ok E _ HQ Hok)) as Hge.
    destruct st as [data g].
    destruct (@ladder_peak_applied E n data g P) as [_ [_ Hn]];
      [apply Hok | lia | lia |].
    specialize (Hn (Z.to_nat P)). destruct Hok as [Hlen _]. simpl in Hlen.
    rewrite Z2Nat.id in Hn by lia.
    destruct (Z.leb_spec (Z.max 0 (P - 15)) P); [|lia].
    destruct (Z.ltb_spec P (Z.min (Z.of_nat n) (P + 15))); [|lia].
    cbn [andb] in Hn.
    pose proof (ladder_bump_centre g P Hc).
    rewrite Hn in Hge by lia. lia.
  - apply IH; [assumption | assumption | now apply ladder_peak_ok].
Qed.

(** X3.  On the ladder channel every configured position below the sample
    count carries a peak: the sample at the position is at least 300, the
    smallest ladder height, whatever is drawn. *)
Theorem ladder_position_reaches_min_height
    (E : Env) (sample_count ch : nat) (g : N) (P : Z) :
  bell_centred E -> (4 <= ch)%nat -> In P ladder_positions ->
  P < Z.of_nat sample_count ->
  300 <= nth (Z.to_nat P) (fst (synth_channel E sample_count ch g)) 0.
Proof.
  intros Hc Hch Hin HP.
  assert (H0 : 0 <= P).
  { pose proof ladder_positions_nonneg as Hpos.
    rewrite Forall_forall in Hpos. now apply Hpos. }
  unfold synth_channel. cbn [Np.random_normal_int16].
  destruct (Nat.ltb_spec ch 4); [lia|].
  apply fold_ladder_peak_reaches; try assumption.
  - lia.
  - apply ladder_positions_nonneg.
  - apply (baseline_ok E sample_count g).
Qed.

Lemma ladder_position_reaches_min_height_witness :
  (4 <= 4)%nat /\ 350 < Z.of_nat 8000 /\
  300 <= nth (Z.to_nat 350) (fst (synth_channel flat_env 8000 4 0)) 0.
Proof.
  split; [lia | split; [reflexivity|]].
  apply (@ladder_position_reaches_min_height flat_env 8000 4 0%N 350).
  - exact bell_fixed_centred.
  - lia.
  - simpl; tauto.
  - reflexivity.
Defined.


Lemma raised_capped (a b : Z) (f : Z -> Z) (base data res : list Z) :
  (forall x, f x <= 499) ->
  raised_on a b f data res -> capped base data -> capped base res.
Proof.
  intros Hf [Hlen Hnth] Hcap i. specialize (Hcap i).
  destruct (Nat.lt_ge_cases i (length data)).
  - rewrite Hnth by assumption. specialize (Hf (Z.of_nat i)).
    destruct ((a <=? Z.of_nat i) && (Z.of_nat i <? b)); lia.
  - rewrite nth_overflow by lia. rewrite nth_overflow in Hcap by lia. lia.
Qed.

Lemma sample_bump_cap (E : Env) (g : N) (P x : Z) :
  bell_bounded E -> sample_bump E g P x <= 499.
Proof.
  intros Hb. unfold sample_bump. cbn [Np.random_randint fst].
  pose proof (Z.mod_pos_bound (raw_variate E g) (300 - 0)) as Hr.
  specialize (Hb (200 + (0 + raw_variate E g mod (300 - 0))) P 5 x).
  rewrite astype_int16_id; lia.
Qed.

Lemma ladder_bump_cap (E : Env) (g : N) (P x : Z) :
  bell_bounded E -> ladder_bump E g P x <= 499.
Proof.
  intros Hb. unfold ladder_bump. cbn [Np.random_randint fst].
  pose proof (Z.mod_pos_bound (raw_variate E g) (200 - 0)) as Hr.
  specialize (Hb (300 + (0 + raw_variate E g mod (200 - 0))) P 4 x).
  rewrite astype_int16_id; lia.
Qed.

Lemma sample_peak_capped (E : Env) (n : nat) (base : list Z) (st : list Z * N)
    (Q : Z) :
  bell_bounded E -> trace_ok n (fst st) -> capped base (fst st) ->
  capped base (fst (sample_peak E n st Q)).
Proof.
  destruct st as [data g]. intros Hb Hok Hcap.
  destruct (Z_lt_ge_dec (Q - 20) 0) as [|H0];
    [now rewrite sample_peak_skipped by lia|].
  destruct (Z_lt_ge_dec (Q + 20) (Z.of_nat n)) as [H1|];
    [|now rewrite sample_peak_skipped by lia].
  destruct (@sample_peak_applied E n data g Q) as [_ Hr];
    [apply Hok | lia | lia |].
  eapply raised_capped; [|exact Hr | exact Hcap].
  intros x. now apply sample_bump_cap.
Qed.

Lemma ladder_peak_capped (E : Env) (n : nat) (base : list Z) (st : list Z * N)
    (Q : Z) :
  bell_bounded E -> 0 <= Q -> trace_ok n (fst st) -> capped base (fst st) ->
  capped base (fst (ladder_peak E n st Q)).
Proof.
  destruct st as [data g]. intros Hb HQ Hok Hcap.
  destruct (Z_lt_ge_dec Q (Z.of_nat n)) as [H1|];
    [|now rewrite ladder_peak_skipped by lia].
  destruct (@ladder_peak_applied E n data g Q) as [_ Hr];
    [apply Hok | lia | lia |].
  eapply raised_capped; [|exact Hr | exact Hcap].
  intros x. now apply ladder_bump_cap.
Qed.

Lemma fold_sample_peak_capped (E : Env) (n : nat) (base : list Z)
    (ps : list Z) (st : list Z * N) :
  bell_bounded E -> trace_ok n (fst st) -> capped base (fst st) ->
  capped base (fst (fold_left (sample_peak E n) ps st)).
Proof.
  intros Hb. revert st. induction ps as [|Q ps IH]; intros st Hok Hcap;
    [exact Hcap|].
  simpl. apply IH; [now apply sample_peak_ok | now apply sample_peak_capped].
Qed.

Lemma fold_ladder_peak_capped (E : Env) (n : nat) (base : list Z)
    (ps : list Z) (st : list Z * N) :
  bell_bounded E -> Forall (fun Q => 0 <= Q) ps ->
  trace_ok n (fst st) -> capped base (fst st) ->
  capped base (fst (fold_left (ladder_peak E n) ps st)).
Proof.
  intros Hb. revert st. induction ps as [|Q ps IH]; intros st Hps Hok Hcap;
    [exact Hcap|].
  inversion Hps as [|? ? HQ Hrest]; subst.
  simpl. apply IH; [assumption | now apply ladder_peak_ok |
                    now apply ladder_peak_capped].
Qed.

(** X4.  No peak is higher than 499: a sample of a synthesized trace exceeds
    499 only where the clipped baseline already does, and then it is the
    baseline sample. *)
Theorem peaks_stay_below_500 (E : Env) (data_points ch : nat) (g : N) (i : nat) :
  bell_bounded E ->
  nth i (fst (synth_channel E data_points ch g)) 0
  <= Z.max (nth i (baseline E data_points g) 0) 499.
Proof.
  intros Hb. revert i. change (capped (baseline E data_points g)
                           (fst (synth_channel E data_points ch g))).
  unfold synth_channel, baseline. cbn [Np.random_normal_int16 fst].
  pose proof (baseline_ok E data_points g) as Hbase.
  cbn [Np.random_normal_int16 fst] in Hbase.
  assert (Hcap : capped (map (Np.clip 0 32767)
                           (map Np.astype_int16 (Np.variates E data_points g)))
                        (map (Np.clip 0 32767)
                           (map Np.astype_int16 (Np.variates E data_points g))))
    by (intros i; lia).
  destruct (ch <? 4)%nat.
  - exact (@fold_sample_peak_capped E data_points _ sample_positions (_, _)
             Hb Hbase Hcap).
  - exact (@fold_ladder_peak_capped E data_points _ ladder_positions (_, _)
             Hb ladder_positions_nonneg Hbase Hcap).
Qed.

Lemma exp_tables_below_one :
  Forall (fun t => 0 <= t <= 2 ^ 40) exp_table_5 /\
  Forall (fun t => 0 <= t <= 2 ^ 40) exp_table_4.
Proof. split; repeat constructor; vm_compute; congruence. Qed.

Lemma bell_fixed_bounded : bell_bounded flat_env.
Proof.
  intros peak c w x Hp. cbn [flat_env bell]. unfold bell_fixed.
  set (d := Z.to_nat (Z.abs (x - c))).
  assert (Ht : 0 <= nth d (if w =? 5 then exp_table_5 else exp_table_4) 0
               <= 2 ^ 40).
  { destruct exp_tables_below_one as [H5 H4].
    destruct (w =? 5).
    - destruct (Nat.lt_ge_cases d (length exp_table_5)).
      + rewrite Forall_forall in H5. apply H5, nth_In; assumption.
      + rewrite nth_overflow by assumption. split; [lia | now vm_compute].
    - destruct (Nat.lt_ge_cases d (length exp_table_4)).
      + rewrite Forall_forall in H4. apply H4, nth_In; assumption.
      + rewrite nth_overflow by assumption. split; [lia | now vm_compute]. }
  set (t := nth d (if w =? 5 then exp_table_5 else exp_table_4) 0) in *.
  assert (H40 : 0 < 2 ^ 40) by reflexivity.
  split.
  - apply Z.div_pos; [nia | assumption].
  - apply Z.div_le_upper_bound; [assumption | nia].
Qed.

Lemma peaks_stay_below_500_witness :
  nth 1000 (fst (synth_channel flat_env 8000 0 0)) 0
  <= Z.max (nth 1000 (baseline flat_env 8000 0) 0) 499.
Proof.
  apply (@peaks_stay_below_500 flat_env 8000 0 0%N 1000).
  exact bell_fixed_bounded.
Defined.

(** * Further properties of the encoder *)

(** ** add_tag *)

Lemma pack_I_fits (v : Z) :
  Py.pack_I v = if fits32 v then Some (Py.be_bytes 4 v) else None.
Proof. reflexivity. Qed.

Lemma tag_name_packed (nb : list Z) :
  Py.pack_s 4 (Py.ljust 4 (firstn 4 nb)) = firstn 4 (nb ++ [0; 0; 0; 0]).
Proof. destruct nb as [|a0 [|a1 [|a2 [|a3 rest]]]]; reflexivity. Qed.

Lemma fits32_range (v : Z) : fits32 v = true -> 0 <= v < 4294967296.
Proof. unfold fits32. rewrite andb_true_iff, Z.leb_le, Z.ltb_lt. tauto. Qed.

(** X5.  With an ASCII name and fields that fit 32 bits, add_tag appends one
    record of 24 bytes to self.directory and touches nothing else; read back
    with the same format the record gives the five fields and the name cut to
    4 bytes or padded with NUL bytes to 4. *)
Theorem add_tag_appends_one_record
    (name : string) (ty es n ds off : Z) (w : World) :
  is_ascii name = true ->
  fits32 ty = true -> fits32 es = true -> fits32 n = true ->
  fits32 ds = true -> fits32 off = true ->
  exists entry,
    add_tag name ty es n ds off w
    = Some (tt, mk_world (rng w)
                  (mk_writer (directory (self w) ++ [entry])
                             (header_size (self w)))
                  (fh w)) /\
    length entry = 24%nat /\
    Reader.unpack_entry entry
    = Reader.mk_entry (firstn 4 (Py.b name ++ [0; 0; 0; 0])) ty es n ds off.
Proof.
  intros Hn Hty Hes Hc Hds Hoff.
  apply fits32_range in Hty, Hes, Hc, Hds, Hoff.
  set (e := Reader.mk_entry (firstn 4 (Py.b name ++ [0; 0; 0; 0]))
              ty es n ds off).
  assert (Hl : length (Reader.tag_name e) = 4%nat).
  { unfold e. cbn [Reader.tag_name]. rewrite <- tag_name_packed.
    apply length_pack_s. }
  exists (pack_entry e). split; [|split].
  - unfold add_tag, bind, try. rewrite (encode_ascii_b _ Hn).
    rewrite tag_name_packed, pack_entry_ok by assumption. reflexivity.
  - now apply length_pack_entry.
  - apply unpack_pack. unfold entry_wf. unfold e in *.
    cbn [Reader.tag_name Reader.element_type Reader.element_size
         Reader.num_elements Reader.data_size Reader.data_offset] in *.
    tauto.
Qed.

Lemma add_tag_appends_one_record_witness :
  exists entry,
    add_tag "SAMPLE" 19 1 6 6 1128 start
    = Some (tt, mk_world 0 (mk_writer [entry] 128) (mk_file [] 0)) /\
    Reader.tag_name (Reader.unpack_entry entry) = Py.b "SAMP".
Proof.
  destruct (@add_tag_appends_one_record "SAMPLE" 19 1 6 6 1128 start
              eq_refl eq_refl eq_refl eq_refl eq_refl eq_refl)
    as (entry & Hrun & _ & Hread).
  exists entry. split; [exact Hrun | now rewrite Hread].
Defined.

(** X6.  add_tag raises exactly when the name is not ASCII or one of the five
    fields does not fit an unsigned 32-bit integer. *)
Theorem add_tag_raises_iff
    (name : string) (ty es n ds off : Z) (w : World) :
  add_tag name ty es n ds off w = None <->
  is_ascii name && fits32 ty && fits32 es && fits32 n && fits32 ds
    && fits32 off = false.
Proof.
  unfold add_tag, bind, try, is_ascii.
  destruct (Py.encode_ascii name) as [nb|]; [|now split].
  cbn [Py.pack_all andb]. rewrite !pack_I_fits.
  destruct (fits32 ty), (fits32 es), (fits32 n), (fits32 ds), (fits32 off);
    cbn; split; intros H; try reflexivity; discriminate H.
Qed.

(** The identifier made of the one character of code 233 is refused. *)
Lemma non_ascii_name_raises_witness :
  is_ascii (String (ascii_of_nat 233) EmptyString) = false /\
  create_fsa_file flat_env (String (ascii_of_nat 233) EmptyString) start = None.
Proof.
  split; [reflexivity|].
  apply (@non_ascii_name_raises flat_env
           (String (ascii_of_nat 233) EmptyString) start).
  reflexivity.
Defined.

(** ** The file of a call *)

Lemma call_read_back (E : Env) (name : string) (w : World) :
  accepted E name = true ->
  exists w',
    create_fsa_file E name w = Some (true, w') /\
    content (fh w') = container (tags_of E name w) /\
    directory (self w') = map pack_entry (place 1128 (tags_of E name w)) /\
    Reader.read_directory (content (fh w')) = place 1128 (tags_of E name w) /\
    map (Reader.payload (content (fh w'))) (place 1128 (tags_of E name w))
    = map t_payload (tags_of E name w) /\
    len (content (fh w')) = 1128 + len (payloads (tags_of E name w)).
Proof.
  intros Hacc.
  destruct (create_fsa_file_runs E name w Hacc) as (w' & Hrun & Hc & Hd).
  destruct (@container_read (tags_of E name w) (length_tags_of E name w)
              (@entries_wf E name w Hacc)) as (Hr & Hp & Hl & _).
  exists w'. rewrite Hc.
  split; [exact Hrun|]. split; [reflexivity|]. split; [exact Hd|].
  split; [exact Hr|]. split; [exact Hp | exact Hl].
Qed.

Lemma total_size_place (tags : list Tag) (off : Z) :
  total_size (place off tags) = len (payloads tags).
Proof.
  revert off. induction tags as [|t tags IH]; intros off; [reflexivity|].
  cbn [place total_size fold_right]. fold (total_size (place (off + len (t_payload t)) tags)).
  rewrite IH, payloads_cons, len_app. reflexivity.
Qed.

(** X8.  The file is the header, the reserved directory block and the
    payloads, and nothing else: its length is 128 + 1000 + the sum of the
    sizes declared in the directory, that is 81169 + the length of the
    sample identifier. *)
Theorem file_length_is_header_directory_payloads
    (E : Env) (name : string) (w : World) :
  accepted E name = true ->
  exists w',
    create_fsa_file E name w = Some (true, w') /\
    let c := content (fh w') in
    len c = 128 + 1000 + total_size (Reader.read_directory c) /\
    len c = 81169 + Z.of_nat (String.length name).
Proof.
  intros Hacc.
  destruct (call_read_back E name w Hacc)
    as (w' & Hrun & _ & _ & Hr & _ & Hl).
  exists w'. split; [exact Hrun|]. cbn zeta.
  rewrite Hr, total_size_place, Hl, len_payloads_tags_of.
  unfold len. rewrite length_b. split; lia.
Qed.

Lemma file_length_is_header_directory_payloads_witness :
  accepted flat_env "SAMPLE001" = true /\
  exists w',
    create_fsa_file flat_env "SAMPLE001" start = Some (true, w') /\
    len (content (fh w')) = 81178.
Proof.
  split; [reflexivity|].
  destruct (@file_length_is_header_directory_payloads flat_env "SAMPLE001"
              start eq_refl) as (w' & Hrun & _ & Hl).
  exists w'. split; [exact Hrun | exact Hl].
Defined.

Lemma place_first (tags : list Tag) (off : Z) :
  tags <> [] -> Reader.data_offset (nth 0 (place off tags) no_entry) = off.
Proof. destruct tags; [congruence | reflexivity]. Qed.

Lemma place_consecutive (tags : list Tag) (off : Z) (i : nat) :
  (S i < length tags)%nat ->
  Reader.data_offset (nth (S i) (place off tags) no_entry)
  = Reader.data_offset (nth i (place off tags) no_entry)
    + Reader.data_size (nth i (place off tags) no_entry).
Proof.
  revert off i. induction tags as [|t tags IH]; intros off i Hi;
    [simpl in Hi; lia|].
  cbn [length] in Hi. destruct i as [|i].
  - destruct tags as [|u tags]; [simpl in Hi; lia | reflexivity].
  - cbn [place nth]. apply IH. lia.
Qed.

(** X9.  The payloads tile the heap in the order of the directory: the first
    entry points to 1128, each entry begins where the one before ends, and
    the last one ends with the file. *)
Theorem payloads_tile_the_heap (E : Env) (name : string) (w : World) :
  accepted E name = true ->
  exists w',
    create_fsa_file E name w = Some (true, w') /\
    let c := content (fh w') in
    let es := Reader.read_directory c in
    Reader.data_offset (nth 0 es no_entry) = 1128 /\
    (forall i : nat, (S i < length es)%nat ->
       Reader.data_offset (nth (S i) es no_entry)
       = Reader.data_offset (nth i es no_entry)
         + Reader.data_size (nth i es no_entry)) /\
    Reader.data_offset (nth 16 es no_entry)
    + Reader.data_size (nth 16 es no_entry) = len c.
Proof.
  intros Hacc.
  destruct (call_read_back E name w Hacc)
    as (w' & Hrun & _ & _ & Hr & _ & Hl).
  exists w'. split; [exact Hrun|]. cbn zeta. rewrite Hr, Hl.
  pose proof (length_tags_of E name w) as H17.
  assert (Hne : tags_of E name w <> [])
    by (intros H0; rewrite H0 in H17; discriminate H17).
  split; [now apply place_first|]. split.
  - intros i Hi. rewrite length_place in Hi. now apply place_consecutive.
  - destruct (tags_of_explicit E name w)
      as (d0 & d1 & d2 & d3 & d4 & -> & L0 & L1 & L2 & L3 & L4).
    unfold emitted.
    cbn [app map dyes place nth entry_of Reader.data_offset Reader.data_size
         t_payload].
    heap_arith.
Qed.

Lemma payloads_tile_the_heap_witness :
  accepted flat_env "SAMPLE001" = true /\
  exists w',
    create_fsa_file flat_env "SAMPLE001" start = Some (true, w') /\
    Reader.data_offset
      (nth 0 (Reader.read_directory (content (fh w'))) no_entry) = 1128.
Proof.
  split; [reflexivity|].
  destruct (@payloads_tile_the_heap flat_env "SAMPLE001" start eq_refl)
    as (w' & Hrun & H0 & _).
  exists w'. split; [exact Hrun | exact H0].
Defined.

(** X10.  The directory fits the 1000 bytes reserved for it: the block from
    128 to 1128 holds the 408 bytes of the entries of self.directory, in
    order, followed by 592 zero bytes. *)
Theorem directory_block_is_entries_then_zeros
    (E : Env) (name : string) (w : World) :
  accepted E name = true ->
  exists w',
    create_fsa_file E name w = Some (true, w') /\
    length (List.concat (directory (self w'))) = 408%nat /\
    Reader.bytes_at 128 1000 (content (fh w'))
    = List.concat (directory (self w')) ++ repeat 0 592.
Proof.
  intros Hacc.
  destruct (call_read_back E name w Hacc)
    as (w' & Hrun & Hc & Hd & _).
  exists w'. split; [exact Hrun|]. rewrite Hc, Hd.
  assert (H408 : length (List.concat (map pack_entry
                                        (place 1128 (tags_of E name w))))
                 = 408%nat)
    by (rewrite length_directory, length_tags_of; reflexivity).
  split; [exact H408|].
  unfold container. apply bytes_at_mid; [reflexivity|].
  rewrite length_app, H408. reflexivity.
Qed.

Lemma directory_block_is_entries_then_zeros_witness :
  accepted flat_env "SAMPLE001" = true /\
  exists w',
    create_fsa_file flat_env "SAMPLE001" start = Some (true, w') /\
    length (List.concat (directory (self w'))) = 408%nat.
Proof.
  split; [reflexivity|].
  destruct (@directory_block_is_entries_then_zeros flat_env "SAMPLE001" start
              eq_refl) as (w' & Hrun & H408 & _).
  exists w'. split; [exact Hrun | exact H408].
Defined.

(** X11.  The directory lists the tags in the order of the source, and the
    names DyeN and DATA occur five times each, without an occurrence number. *)
Theorem directory_names_in_order (E : Env) (name : string) (w : World) :
  accepted E name = true ->
  exists w',
    create_fsa_file E name w = Some (true, w') /\
    map Reader.tag_name (Reader.read_directory (content (fh w')))
    = map Py.b ["SMPL"; "MCHN"; "MODL"; "RUND"; "RUNT"; "SCAN"; "LANE";
                "DyeN"; "DyeN"; "DyeN"; "DyeN"; "DyeN";
                "DATA"; "DATA"; "DATA"; "DATA"; "DATA"]%string.
Proof.
  intros Hacc.
  destruct (call_read_back E name w Hacc) as (w' & Hrun & _ & _ & Hr & _).
  exists w'. split; [exact Hrun|]. rewrite Hr.
  destruct (tags_of_explicit E name w) as (d0 & d1 & d2 & d3 & d4 & -> & _).
  unfold emitted.
  cbn [app map dyes place entry_of t_name Reader.tag_name].
  reflexivity.
Qed.

Lemma directory_names_in_order_witness :
  accepted flat_env "SAMPLE001" = true /\
  exists w',
    create_fsa_file flat_env "SAMPLE001" start = Some (true, w') /\
    nth 7 (map Reader.tag_name (Reader.read_directory (content (fh w')))) []
    = nth 8 (map Reader.tag_name (Reader.read_directory (content (fh w')))) [].
Proof.
  split; [reflexivity|].
  destruct (@directory_names_in_order flat_env "SAMPLE001" start eq_refl)
    as (w' & Hrun & Hn).
  exists w'. split; [exact Hrun | now rewrite Hn].
Defined.

(** ** The payloads, decoded *)

Lemma be_value_byte (v : Z) :
  0 <= v < 256 -> Reader.be_value (Py.be_bytes 1 v) = v.
Proof. intros H. apply be_value_be_bytes. exact H. Qed.

(** X12.  The run date and the run time are read back from the payloads of
    RUND and RUNT: year on two bytes, month, day, then hour, minute, second
    on one byte each and a zero byte of padding. *)
Theorem clock_is_read_back (E : Env) (name : string) (w : World) :
  accepted E name = true ->
  exists w',
    create_fsa_file E name w = Some (true, w') /\
    let c := content (fh w') in
    let es := Reader.read_directory c in
    let date := Reader.payload c (nth 3 es no_entry) in
    let time := Reader.payload c (nth 4 es no_entry) in
    Reader.tag_name (nth 3 es no_entry) = Py.b "RUND" /\
    Reader.tag_name (nth 4 es no_entry) = Py.b "RUNT" /\
    Reader.be_value (Reader.bytes_at 0 2 date) = year (now E) /\
    Reader.be_value (Reader.bytes_at 2 1 date) = month (now E) /\
    Reader.be_value (Reader.bytes_at 3 1 date) = day (now E) /\
    Reader.be_value (Reader.bytes_at 0 1 time) = hour (now E) /\
    Reader.be_value (Reader.bytes_at 1 1 time) = minute (now E) /\
    Reader.be_value (Reader.bytes_at 2 1 time) = second (now E) /\
    Reader.bytes_at 3 1 time = [0].
Proof.
  intros Hacc.
  destruct (call_read_back E name w Hacc)
    as (w' & Hrun & _ & _ & Hr & Hp & _).
  exists w'. split; [exact Hrun|]. cbn zeta. rewrite Hr.
  pose proof (fun i => @payload_nth _ _ _ i Hp) as Hn. rewrite !Hn. clear Hn.
  destruct (accepted_parts _ _ Hacc) as (_ & _ & Hnow).
  apply datetime_ok_fields in Hnow.
  destruct (tags_of_explicit E name w) as (d0 & d1 & d2 & d3 & d4 & -> & _).
  unfold emitted.
  cbn [app map dyes place nth entry_of Reader.tag_name t_name t_payload].
  unfold run_date_bytes, run_time_bytes.
  split; [reflexivity|]. split; [reflexivity|].
  split; [|split; [|split; [|split; [|split; [|split]]]]].
  - transitivity (Reader.be_value (Py.be_bytes 2 (year (now E))));
      [reflexivity|].
    apply be_value_be_bytes. change (256 ^ Z.of_nat 2) with 65536. lia.
  - transitivity (Reader.be_value (Py.be_bytes 1 (month (now E))));
      [reflexivity | apply be_value_byte; lia].
  - transitivity (Reader.be_value (Py.be_bytes 1 (day (now E))));
      [reflexivity | apply be_value_byte; lia].
  - transitivity (Reader.be_value (Py.be_bytes 1 (hour (now E))));
      [reflexivity | apply be_value_byte; lia].
  - transitivity (Reader.be_value (Py.be_bytes 1 (minute (now E))));
      [reflexivity | apply be_value_byte; lia].
  - transitivity (Reader.be_value (Py.be_bytes 1 (second (now E))));
      [reflexivity | apply be_value_byte; lia].
  - reflexivity.
Qed.

Lemma clock_is_read_back_witness :
  accepted flat_env "SAMPLE001" = true /\
  exists w',
    create_fsa_file flat_env "SAMPLE001" start = Some (true, w') /\
    Reader.be_value
      (Reader.bytes_at 0 2
         (Reader.payload (content (fh w'))
            (nth 3 (Reader.read_directory (content (fh w'))) no_entry)))
    = 2024.
Proof.
  split; [reflexivity|].
  destruct (@clock_is_read_back flat_env "SAMPLE001" start eq_refl)
    as (w' & Hrun & _ & _ & Hy & _).
  exists w'. split; [exact Hrun | exact Hy].
Defined.

Lemma channels_of_explicit (E : Env) (w : World) :
  exists d0 d1 d2 d3 d4,
    channels_of E w = [d0; d1; d2; d3; d4] /\
    trace_ok 8000 d0 /\ trace_ok 8000 d1 /\ trace_ok 8000 d2 /\
    trace_ok 8000 d3 /\ trace_ok 8000 d4.
Proof.
  unfold channels_of. cbn [seq synth_channels].
  pose proof (synth_channel_ok E 8000 0 (rng w)) as H0.
  destruct (synth_channel E 8000 0 (rng w)) as [d0 g0].
  pose proof (synth_channel_ok E 8000 1 g0) as H1.
  destruct (synth_channel E 8000 1 g0) as [d1 g1].
  pose proof (synth_channel_ok E 8000 2 g1) as H2.
  destruct (synth_channel E 8000 2 g1) as [d2 g2].
  pose proof (synth_channel_ok E 8000 3 g2) as H3.
  destruct (synth_channel E 8000 3 g2) as [d3 g3].
  pose proof (synth_channel_ok E 8000 4 g3) as H4.
  destruct (synth_channel E 8000 4 g3) as [d4 g4].
  exists d0, d1, d2, d3, d4. cbn [fst] in *. tauto.
Qed.

(** X13.  The scan count and the traces agree: the payload of SCAN reads
    8000, every DATA entry declares 8000 elements in 16000 bytes, and the
    payload of LANE reads 1. *)
Theorem scan_count_matches_traces (E : Env) (name : string) (w : World) :
  accepted E name = true ->
  exists w',
    create_fsa_file E name w = Some (true, w') /\
    let c := content (fh w') in
    let es := Reader.read_directory c in
    Reader.be_value (Reader.payload c (nth 5 es no_entry)) = 8000 /\
    Reader.be_value (Reader.payload c (nth 6 es no_entry)) = 1 /\
    forall k : nat, (k < 5)%nat ->
      Reader.tag_name (nth (12 + k) es no_entry) = Py.b "DATA" /\
      Reader.num_elements (nth (12 + k) es no_entry) = 8000 /\
      Reader.data_size (nth (12 + k) es no_entry) = 16000.
Proof.
  intros Hacc.
  destruct (call_read_back E name w Hacc)
    as (w' & Hrun & _ & _ & Hr & Hp & _).
  exists w'. split; [exact Hrun|]. cbn zeta. rewrite Hr.
  pose proof (fun i => @payload_nth _ _ _ i Hp) as Hn. rewrite !Hn. clear Hn.
  destruct (tags_of_explicit E name w)
    as (d0 & d1 & d2 & d3 & d4 & -> & L0 & L1 & L2 & L3 & L4).
  unfold emitted.
  split; [reflexivity|]. split; [reflexivity|].
  intros k Hk.
  do 5 (destruct k as [|k];
        [cbn [app map dyes place nth entry_of Nat.add Reader.tag_name
              Reader.num_elements Reader.data_size t_name t_count t_payload];
         rewrite len_tobytes;
         split; [reflexivity | split; lia]|]).
  lia.
Qed.

Lemma scan_count_matches_traces_witness :
  accepted flat_env "SAMPLE001" = true /\
  exists w',
    create_fsa_file flat_env "SAMPLE001" start = Some (true, w') /\
    Reader.be_value
      (Reader.payload (content (fh w'))
         (nth 5 (Reader.read_directory (content (fh w'))) no_entry)) = 8000.
Proof.
  split; [reflexivity|].
  destruct (@scan_count_matches_traces flat_env "SAMPLE001" start eq_refl)
    as (w' & Hrun & Hs & _).
  exists w'. split; [exact Hrun | exact Hs].
Defined.

Lemma frombytes_int16 (le : bool) (v : Z) (rest : list Z) :
  -32768 <= v <= 32767 ->
  frombytes le (Np.int16_bytes le v ++ rest) = v :: frombytes le rest.
Proof.
  intros Hv. unfold Np.int16_bytes.
  pose proof (Z.mod_pos_bound v 65536 ltac:(lia)) as Hu.
  pose proof (Z.div_mod (v mod 65536) 256 ltac:(lia)) as Hd.
  assert (Hm : v mod 65536 = if v <? 0 then v + 65536 else v).
  { destruct (Z.ltb_spec v 0).
    - symmetry. apply (Z.mod_unique v 65536 (-1)); lia.
    - apply Z.mod_small. lia. }
  destruct le; cbn [app frombytes]; f_equal.
  - replace (v mod 65536 mod 256 + 256 * (v mod 65536 / 256))
      with (v mod 65536) by lia.
    rewrite Hm. destruct (Z.ltb_spec v 0);
      [destruct (Z.ltb_spec (v + 65536) 32768) | destruct (Z.ltb_spec v 32768)];
      lia.
  - replace (256 * (v mod 65536 / 256) + v mod 65536 mod 256)
      with (v mod 65536) by lia.
    rewrite Hm. destruct (Z.ltb_spec v 0);
      [destruct (Z.ltb_spec (v + 65536) 32768) | destruct (Z.ltb_spec v 32768)];
      lia.
Qed.

Lemma frombytes_tobytes (le : bool) (d : list Z) :
  Forall (fun v => 0 <= v <= 32767) d ->
  frombytes le (Np.tobytes le d) = d.
Proof.
  intros H. induction H as [|v d Hv _ IH]; [reflexivity|].
  unfold Np.tobytes. cbn [flat_map]. fold (Np.tobytes le d).
  rewrite frombytes_int16 by lia. now rewrite IH.
Qed.

(** X14.  The traces are recovered from the file: the payload of the k-th
    DATA entry, read two bytes per sample in the byte order of the machine,
    is the k-th synthesized trace, which has 8000 samples in [0, 32767]. *)
Theorem traces_are_read_back (E : Env) (name : string) (w : World) (k : nat) :
  accepted E name = true -> (k < 5)%nat ->
  exists w',
    create_fsa_file E name w = Some (true, w') /\
    let c := content (fh w') in
    let es := Reader.read_directory c in
    let data := nth k (channels_of E w) [] in
    frombytes (little_endian E) (Reader.payload c (nth (12 + k) es no_entry))
    = data /\
    length data = 8000%nat /\ Forall (fun v => 0 <= v <= 32767) data.
Proof.
  intros Hacc Hk.
  destruct (call_read_back E name w Hacc)
    as (w' & Hrun & _ & _ & Hr & Hp & _).
  exists w'. split; [exact Hrun|]. cbn zeta. rewrite Hr.
  pose proof (fun i => @payload_nth _ _ _ i Hp) as Hn. rewrite !Hn. clear Hn.
  unfold tags_of.
  destruct (channels_of_explicit E w)
    as (d0 & d1 & d2 & d3 & d4 & -> & T0 & T1 & T2 & T3 & T4).
  unfold emitted.
  do 5 (destruct k as [|k];
        [cbn [app map dyes nth Nat.add t_payload];
         match goal with
         | T : trace_ok _ ?d |- frombytes _ (Np.tobytes _ ?d) = _ /\ _ =>
             destruct T as [Hl Hf];
             split; [now apply frombytes_tobytes | split; assumption]
         end|]).
  lia.
Qed.

Lemma traces_are_read_back_witness :
  accepted flat_env "SAMPLE001" = true /\ (0 < 5)%nat /\
  exists w',
    create_fsa_file flat_env "SAMPLE001" start = Some (true, w') /\
    frombytes true
      (Reader.payload (content (fh w'))
         (nth 12 (Reader.read_directory (content (fh w'))) no_entry))
    = nth 0 (channels_of flat_env start) [].
Proof.
  split; [reflexivity|]. split; [lia|].
  destruct (@traces_are_read_back flat_env "SAMPLE001" start 0 eq_refl
              ltac:(lia)) as (w' & Hrun & Hd & _).
  exists w'. split; [exact Hrun | exact Hd].
Defined.

(** X15.  A call starts afresh: the file and self.directory it leaves depend
    on the identifier, the clock and the state of the generator, not on what
    the file or self.directory held before, so one writer serves many files. *)
Theorem call_ignores_previous_file_and_directory
    (E : Env) (name : string) (w1 w2 : World) :
  accepted E name = true -> rng w1 = rng w2 ->
  exists w1' w2',
    create_fsa_file E name w1 = Some (true, w1') /\
    create_fsa_file E name w2 = Some (true, w2') /\
    content (fh w1') = content (fh w2') /\
    directory (self w1') = directory (self w2').
Proof.
  intros Hacc Hg.
  destruct (create_fsa_file_runs E name w1 Hacc) as (w1' & Hr1 & Hc1 & Hd1).
  destruct (create_fsa_file_runs E name w2 Hacc) as (w2' & Hr2 & Hc2 & Hd2).
  exists w1', w2'. split; [exact Hr1|]. split; [exact Hr2|].
  rewrite Hc1, Hc2, Hd1, Hd2. unfold tags_of, channels_of. rewrite Hg.
  split; reflexivity.
Qed.

Lemma call_ignores_previous_file_and_directory_witness :
  accepted flat_env "SAMPLE001" = true /\
  exists w1' w2',
    create_fsa_file flat_env "SAMPLE001" start = Some (true, w1') /\
    create_fsa_file flat_env "SAMPLE001"
      (mk_world 0 (mk_writer [[1; 2; 3]] 128) (mk_file [9; 9; 9] 2))
    = Some (true, w2') /\
    content (fh w1') = content (fh w2').
Proof.
  split; [reflexivity|].
  destruct (@call_ignores_previous_file_and_directory flat_env "SAMPLE001"
              start (mk_world 0 (mk_writer [[1; 2; 3]] 128)
                       (mk_file [9; 9; 9] 2)) eq_refl eq_refl)
    as (w1' & w2' & H1 & H2 & Hc & _).
  exists w1', w2'. split; [exact H1|]. split; [exact H2 | exact Hc].
Defined.
